(** * MoonTheif: the Explorer page and the universe viewer

    A shallow embedding of the logic of [src/pages/Explorer.tsx] and of
    [src/components/universe-viewer.tsx]: the scene generation
    ([generateUniversePlanets]), the temperature classifiers
    ([getPlanetColor], [generateAtmosphereData], [getTextureForTemperature]),
    the selection handlers ([handlePlanetSelect], [handleSearch]) and the
    detail view generator ([generateExoplanet]).

    Conventions.
    - A JavaScript [number] that holds a measurement is a real number [R]:
      the records come out of [JSON.parse], which never yields NaN, and the
      code only compares, clamps, adds and multiplies them.  Rounding of
      IEEE doubles is not modelled.
    - A JavaScript string is a [string] whose characters are the code units
      below 256 (the identifiers of the data set, such as K00752.01, are
      ASCII).
    - [Math.random()] is an explicit sequence of draws [nat -> R]; the k-th
      call made by a function reads the k-th element.
    - A React state cell is a field of the record [Explorer.State]; a handler
      is a function from the state to the next state. *)

From Stdlib Require Import Reals Lra Lia ZArith List String Ascii Bool.
From stdpp Require Import base gmap strings list pretty.

(** ** JavaScript built-ins used by the page *)

Module JS.

(** *** Strings *)

(** [c.toLowerCase()] on one code unit below 256: the letters A-Z and the
    Latin-1 capitals (192-222 except the multiplication sign 215). *)
Definition lowerChar (c : ascii) : ascii :=
  let n := nat_of_ascii c in
  if ((65 <=? n) && (n <=? 90))%nat
     || ((192 <=? n) && (n <=? 222) && negb (n =? 215))%nat
  then ascii_of_nat (n + 32)
  else c.

Fixpoint toLowerCase (s : string) : string :=
  match s with
  | EmptyString => EmptyString
  | String c s' => String (lowerChar c) (toLowerCase s')
  end.

(** [s.includes(sub)]: [sub] occurs in [s] as a contiguous substring. *)
Fixpoint includes (s sub : string) : bool :=
  String.prefix sub s
  || match s with
     | EmptyString => false
     | String _ s' => includes s' sub
     end.

(** White space removed by [trim], among the code units below 256. *)
Definition isWhiteSpace (c : ascii) : bool :=
  let n := nat_of_ascii c in
  (((9 <=? n) && (n <=? 13)) || (n =? 32) || (n =? 160))%nat.

Fixpoint trimStart (s : string) : string :=
  match s with
  | EmptyString => EmptyString
  | String c s' => if isWhiteSpace c then trimStart s' else s
  end.

Fixpoint trimEnd (s : string) : string :=
  match s with
  | EmptyString => EmptyString
  | String c s' =>
      match trimEnd s' with
      | EmptyString => if isWhiteSpace c then EmptyString else String c EmptyString
      | t => String c t
      end
  end.

Definition trim (s : string) : string := trimEnd (trimStart s).

(** A string used as a condition: only the empty string is falsy. *)
Definition truthy (s : string) : bool :=
  match s with
  | EmptyString => false
  | String _ _ => true
  end.

(** [s.split('').reduce((acc, char) => acc + char.charCodeAt(0), 0)]. *)
Fixpoint charCodeSum (acc : Z) (s : string) : Z :=
  match s with
  | EmptyString => acc
  | String c s' => charCodeSum (acc + Z.of_nat (nat_of_ascii c)) s'
  end.

(** *** Numbers *)

Definition Math_max (a b : R) : R := Rmax a b.
Definition Math_min (a b : R) : R := Rmin a b.
Definition Math_abs (a : R) : R := Rabs a.
Definition Math_PI : R := PI.
Definition Math_cos (a : R) : R := cos a.
Definition Math_sin (a : R) : R := sin a.

(** [Math.round x] is the floor of [x + 0.5]. *)
Definition Math_round (x : R) : R := IZR (Int_part (x + / 2)).

(** [a < b] on numbers, as a condition. *)
Definition lt (a b : R) : bool := if Rlt_dec a b then true else false.
Definition gt (a b : R) : bool := if Rgt_dec a b then true else false.

(** [arr.slice(0, n)] and [arr.find(p)]. *)
Definition slice0 {A} (n : nat) (arr : list A) : list A := firstn n arr.
Definition find {A} (p : A -> bool) (arr : list A) : option A := List.find p arr.

(** [Math.floor x], an integer. *)
Definition Math_floor (x : R) : Z := Int_part x.

End JS.

(** ** src/pages/Explorer.tsx *)

Module Explorer.
Import JS.
Local Open Scope R_scope.

(** *** The interfaces *)

Record NASAExoplanetData := {
  kepoi_name : string;
  koi_period : R;
  koi_prad : R;
  koi_teq : R;
  koi_steff : R;
  koi_srad : R;
  koi_insol : R;
  koi_disposition : string;
  koi_kepmag : R;
  ra_str : string;
  dec_str : string
}.

(** An element of a [stats] array. *)
Record Stat := {
  label : string;
  value : string;
  unit : option string
}.

Record UniversePlanetData := {
  id : string;
  name : string;
  position : R * R * R;
  radius : R;
  color : string;
  temperature : R;
  period : R;
  stats : list Stat
}.

Record AtmosphereComponent := {
  component : string;
  percentage : Z
}.

Record TemperaturePoint := {
  tp_period : string;
  tp_temperature : R
}.

Record HabitabilityMetric := {
  metric : string;
  metric_value : R
}.

Record ExoplanetData := {
  exo_name : string;
  exo_keyPoints : list string;
  exo_stats : list Stat;
  exo_color : string;
  exo_temperature : R;
  atmosphereData : list AtmosphereComponent;
  temperatureHistory : list TemperaturePoint;
  habitabilityMetrics : list HabitabilityMetric
}.

Inductive ViewMode := universe | detailed.

(** The state cells of the component, in the order of their [useState]. *)
Record State := {
  planetName : string;
  exoplanetData : option ExoplanetData;
  isLoading : bool;
  availablePlanets : list NASAExoplanetData;
  universePlanets : list UniversePlanetData;
  selectedPlanet : option UniversePlanetData;
  viewMode : ViewMode;
  searchQuery : string;
  discoveredPlanets : gset string
}.

Definition initialState : State := {|
  planetName := "";
  exoplanetData := None;
  isLoading := false;
  availablePlanets := [];
  universePlanets := [];
  selectedPlanet := None;
  viewMode := universe;
  searchQuery := "";
  discoveredPlanets := ∅
|}.

(** The setters returned by [useState]. *)
Definition setPlanetName (v : string) (s : State) : State :=
  {| planetName := v;
     exoplanetData := exoplanetData s;
     isLoading := isLoading s;
     availablePlanets := availablePlanets s;
     universePlanets := universePlanets s;
     selectedPlanet := selectedPlanet s;
     viewMode := viewMode s;
     searchQuery := searchQuery s;
     discoveredPlanets := discoveredPlanets s |}.

Definition setExoplanetData (v : option ExoplanetData) (s : State) : State :=
  {| planetName := planetName s;
     exoplanetData := v;
     isLoading := isLoading s;
     availablePlanets := availablePlanets s;
     universePlanets := universePlanets s;
     selectedPlanet := selectedPlanet s;
     viewMode := viewMode s;
     searchQuery := searchQuery s;
     discoveredPlanets := discoveredPlanets s |}.

Definition setIsLoading (v : bool) (s : State) : State :=
  {| planetName := planetName s;
     exoplanetData := exoplanetData s;
     isLoading := v;
     availablePlanets := availablePlanets s;
     universePlanets := universePlanets s;
     selectedPlanet := selectedPlanet s;
     viewMode := viewMode s;
     searchQuery := searchQuery s;
     discoveredPlanets := discoveredPlanets s |}.

Definition setAvailablePlanets (v : list NASAExoplanetData) (s : State) : State :=
  {| planetName := planetName s;
     exoplanetData := exoplanetData s;
     isLoading := isLoading s;
     availablePlanets := v;
     universePlanets := universePlanets s;
     selectedPlanet := selectedPlanet s;
     viewMode := viewMode s;
     searchQuery := searchQuery s;
     discoveredPlanets := discoveredPlanets s |}.

Definition setUniversePlanets (v : list UniversePlanetData) (s : State) : State :=
  {| planetName := planetName s;
     exoplanetData := exoplanetData s;
     isLoading := isLoading s;
     availablePlanets := availablePlanets s;
     universePlanets := v;
     selectedPlanet := selectedPlanet s;
     viewMode := viewMode s;
     searchQuery := searchQuery s;
     discoveredPlanets := discoveredPlanets s |}.

Definition setSelectedPlanet (v : option UniversePlanetData) (s : State) : State :=
  {| planetName := planetName s;
     exoplanetData := exoplanetData s;
     isLoading := isLoading s;
     availablePlanets := availablePlanets s;
     universePlanets := universePlanets s;
     selectedPlanet := v;
     viewMode := viewMode s;
     searchQuery := searchQuery s;
     discoveredPlanets := discoveredPlanets s |}.

Definition setViewMode (v : ViewMode) (s : State) : State :=
  {| planetName := planetName s;
     exoplanetData := exoplanetData s;
     isLoading := isLoading s;
     availablePlanets := availablePlanets s;
     universePlanets := universePlanets s;
     selectedPlanet := selectedPlanet s;
     viewMode := v;
     searchQuery := searchQuery s;
     discoveredPlanets := discoveredPlanets s |}.

Definition setSearchQuery (v : string) (s : State) : State :=
  {| planetName := planetName s;
     exoplanetData := exoplanetData s;
     isLoading := isLoading s;
     availablePlanets := availablePlanets s;
     universePlanets := universePlanets s;
     selectedPlanet := selectedPlanet s;
     viewMode := viewMode s;
     searchQuery := v;
     discoveredPlanets := discoveredPlanets s |}.

Definition setDiscoveredPlanets (v : gset string) (s : State) : State :=
  {| planetName := planetName s;
     exoplanetData := exoplanetData s;
     isLoading := isLoading s;
     availablePlanets := availablePlanets s;
     universePlanets := universePlanets s;
     selectedPlanet := selectedPlanet s;
     viewMode := viewMode s;
     searchQuery := searchQuery s;
     discoveredPlanets := v |}.

(** What a handler shows to the user or writes to the console. *)
Inductive Effect :=
| toast (title description : string) (destructive : bool)
| console_error (message : string).

Definition isToast (e : Effect) : bool :=
  match e with
  | toast _ _ _ => true
  | console_error _ => false
  end.

(** *** Temperature classifiers *)

Definition getPlanetColor (temperature : R) : string :=
  if lt temperature 200 then "blue"
  else if lt temperature 230 then "cyan"
  else if lt temperature 260 then "cyan"
  else if lt temperature 290 then "green"
  else if lt temperature 320 then "yellowgreen"
  else if lt temperature 350 then "yellow"
  else if lt temperature 400 then "orange"
  else if lt temperature 500 then "redorange"
  else "red".

Definition generateAtmosphereData (temperature : R) : list AtmosphereComponent :=
  if lt temperature 220 then
    [ {| component := "N2"; percentage := 45 |};
      {| component := "CO2"; percentage := 35 |};
      {| component := "H2O"; percentage := 15 |};
      {| component := "CH4"; percentage := 5 |} ]
  else if lt temperature 280 then
    [ {| component := "H2O"; percentage := 40 |};
      {| component := "N2"; percentage := 30 |};
      {| component := "CO2"; percentage := 20 |};
      {| component := "O2"; percentage := 10 |} ]
  else
    [ {| component := "CO2"; percentage := 50 |};
      {| component := "H2O"; percentage := 25 |};
      {| component := "N2"; percentage := 15 |};
      {| component := "SO2"; percentage := 10 |} ].

(** The sum of the percentages of a composition. *)
Definition totalPercentage (mix : list AtmosphereComponent) : Z :=
  fold_right Z.add 0%Z (map percentage mix).

(** *** The scene generator *)

(** The three local constants of the [map] callback. *)
Definition placementAngle (index : nat) : R :=
  (INR index / 50) * Math_PI * 12.

Definition ringRadius (index : nat) : R :=
  112.5 + INR (index mod 7)%nat * 93.75.

Definition placementHeight (draw : R) : R :=
  (draw - 0.5) * 150.

(** [Math.max(0.5, Math.min(3, prad))]. *)
Definition displayRadius (prad : R) : R :=
  Math_max 0.5 (Math_min 3 prad).

Section Formatting.

(** [x.toFixed(digits)] and [x.toString()] print a number; the page only
    displays their results. *)
Variable toFixed : R -> nat -> string.
Variable toString : R -> string.

(** [random k] is the k-th result of [Math.random()] during the call. *)
Variable random : nat -> R.

(** The callback of [nasaData.slice(0, 50).map(...)]; it draws one
    random number per element, in index order. *)
Definition universePlanetOf (index : nat) (nasaPlanet : NASAExoplanetData)
  : UniversePlanetData :=
  let angle := placementAngle index in
  let radius := ringRadius index in
  let height := placementHeight (random index) in
  {| id := kepoi_name nasaPlanet;
     name := kepoi_name nasaPlanet;
     position := (Math_cos angle * radius, height, Math_sin angle * radius);
     radius := displayRadius (koi_prad nasaPlanet);
     color := getPlanetColor (koi_teq nasaPlanet);
     temperature := koi_teq nasaPlanet;
     period := koi_period nasaPlanet;
     stats :=
       [ {| label := "Radius"; value := toFixed (koi_prad nasaPlanet) 2; unit := Some "R⊕" |};
         {| label := "Period"; value := toFixed (koi_period nasaPlanet) 1; unit := Some "days" |};
         {| label := "Temperature"; value := toString (koi_teq nasaPlanet); unit := Some "K" |};
         {| label := "Star Temp"; value := toString (koi_steff nasaPlanet); unit := Some "K" |};
         {| label := "Star Radius"; value := toFixed (koi_srad nasaPlanet) 2; unit := Some "R☉" |};
         {| label := "Irradiation"; value := toFixed (koi_insol nasaPlanet) 2; unit := Some "S⊕" |} ]
  |}.

(** The array [planets] built by [generateUniversePlanets]. *)
Definition planetsOf (nasaData : list NASAExoplanetData) : list UniversePlanetData :=
  imap universePlanetOf (slice0 50 nasaData).

(** [generateUniversePlanets nasaData]: build the array and store it. *)
Definition generateUniversePlanets (nasaData : list NASAExoplanetData) (s : State) : State :=
  setUniversePlanets (planetsOf nasaData) s.

(** The effect that runs when [availablePlanets] has changed: the universe
    is generated once there is a record. *)
Definition availablePlanetsEffect (s : State) : State :=
  if (0 <? length (availablePlanets s))%nat
  then generateUniversePlanets (availablePlanets s) s
  else s.

(** What [loadNASAData] does to the page once the records are there, from
    the cache or from the response: it stores them, and the effect runs. *)
Definition dataLoaded (data : list NASAExoplanetData) (s : State) : State :=
  availablePlanetsEffect (setAvailablePlanets data s).

(** *** The detail view *)

Definition generateHabitabilityMetrics (draw : R) (planet : NASAExoplanetData)
  : list HabitabilityMetric :=
  let tempScore :=
    Math_max 0 (Math_min 100 (100 - Math_abs (koi_teq planet - 250) * 2)) in
  let radiusScore :=
    Math_max 0 (Math_min 100 (100 - Math_abs (koi_prad planet - 1) * 30)) in
  let stellarScore :=
    Math_max 0 (Math_min 100 (100 - Math_abs (koi_steff planet - 5778) / 100)) in
  let waterScore :=
    if gt tempScore 60 then draw * 30 + 60 else draw * 40 + 20 in
  [ {| metric := "Water Presence"; metric_value := Math_round waterScore |};
    {| metric := "Atmosphere"; metric_value := Math_round ((tempScore + radiusScore) / 2) |};
    {| metric := "Temperature"; metric_value := Math_round tempScore |};
    {| metric := "Stellar Radiation"; metric_value := Math_round stellarScore |} ].

(** The object [planetData] built in the [try] block for a record that
    was found; the three draws of [temperatureHistory] come first, the
    draw of [generateHabitabilityMetrics] last. *)
Definition planetDataOf (nasaPlanet : NASAExoplanetData) : ExoplanetData :=
  let keyPoints :=
    [ "Orbits " +:+ toString (koi_steff nasaPlanet) +:+ "K star every "
        +:+ toFixed (koi_period nasaPlanet) 1 +:+ " days";
      "Planet radius is " +:+ toFixed (koi_prad nasaPlanet) 2
        +:+ " times Earth's radius";
      "Equilibrium temperature of " +:+ toString (koi_teq nasaPlanet) +:+ "K";
      "Receives " +:+ toFixed (koi_insol nasaPlanet) 2
        +:+ " times Earth's solar irradiation";
      "Located at coordinates " +:+ ra_str nasaPlanet +:+ ", "
        +:+ dec_str nasaPlanet ] in
  let esi :=
    Math_max 0 (Math_min 1
      (1 - Math_abs (koi_prad nasaPlanet - 1) * 0.3
         - Math_abs (koi_teq nasaPlanet - 255) / 300)) in
  {| exo_name := kepoi_name nasaPlanet;
     exo_keyPoints := keyPoints;
     exo_color := getPlanetColor (koi_teq nasaPlanet);
     exo_temperature := koi_teq nasaPlanet;
     exo_stats :=
       [ {| label := "Radius"; value := toFixed (koi_prad nasaPlanet) 2; unit := Some "R⊕" |};
         {| label := "Period"; value := toFixed (koi_period nasaPlanet) 1; unit := Some "days" |};
         {| label := "Temperature"; value := toString (koi_teq nasaPlanet); unit := Some "K" |};
         {| label := "Star Temp"; value := toString (koi_steff nasaPlanet); unit := Some "K" |};
         {| label := "Star Radius"; value := toFixed (koi_srad nasaPlanet) 2; unit := Some "R☉" |};
         {| label := "ESI"; value := toFixed esi 2; unit := Some "" |} ];
     atmosphereData := generateAtmosphereData (koi_teq nasaPlanet);
     temperatureHistory :=
       [ {| tp_period := "Present"; tp_temperature := koi_teq nasaPlanet |};
         {| tp_period := "1M years"; tp_temperature := koi_teq nasaPlanet - random 0 * 10 |};
         {| tp_period := "10M years"; tp_temperature := koi_teq nasaPlanet - random 1 * 20 |};
         {| tp_period := "100M years"; tp_temperature := koi_teq nasaPlanet - random 2 * 30 |} ];
     habitabilityMetrics := generateHabitabilityMetrics (random 3) nasaPlanet
  |}.

(** [generateExoplanet] is asynchronous.  [generateExoplanet_start] is
    the part that runs at the call, up to the two second [await]; when
    it reaches the [await] it leaves a [Pending] continuation holding
    the values of [planetName] and [availablePlanets] that the closure
    captured.  [generateExoplanet_resume] is the part that runs after the
    delay, on the state as it is by then. *)
Record Pending := {
  pendingName : string;
  pendingPlanets : list NASAExoplanetData
}.

Definition generateExoplanet_start (s : State)
  : State * list Effect * option Pending :=
  if negb (truthy (trim (planetName s))) then
    (s,
     [ toast "Planet Name Required"
             "Please enter an exoplanet name or generate a random one."
             true ],
     None)
  else
    (setIsLoading true s, [],
     Some {| pendingName := planetName s;
             pendingPlanets := availablePlanets s |}).

(** The test of [availablePlanets.find] in the [try] block. *)
Definition matchesName (planetName : string) (p : NASAExoplanetData) : bool :=
  includes (toLowerCase (kepoi_name p)) (toLowerCase planetName)
  || includes (toLowerCase planetName) (toLowerCase (kepoi_name p)).

Definition generateExoplanet_resume (k : Pending) (s : State)
  : State * list Effect :=
  match find (matchesName (pendingName k)) (pendingPlanets k) with
  | Some nasaPlanet =>
      (* the try block runs to its end, then finally *)
      (setIsLoading false (setExoplanetData (Some (planetDataOf nasaPlanet)) s),
       [ toast "Exoplanet Found!"
               ("Real NASA data loaded for " +:+ kepoi_name nasaPlanet)
               false ])
  | None =>
      (* throw, catch, then finally *)
      (setIsLoading false s,
       [ console_error "Error loading exoplanet: Error: Planet not found in NASA database";
         toast "Planet Not Found"
               "This planet is not in the NASA habitable zone database. Try a random one!"
               true ])
  end.

(** A call of [generateExoplanet] that nothing interrupts: the second
    part runs on the state that the first part left. *)
Definition generateExoplanet (s : State) : State * list Effect :=
  match generateExoplanet_start s with
  | (s1, shown, None) => (s1, shown)
  | (s1, shown, Some k) =>
      let (s2, shown') := generateExoplanet_resume k s1 in
      (s2, shown ++ shown')
  end.

(** [switchToDetailedView]: the call of [generateExoplanet] is not
    awaited, so the view mode changes before the delay is over. *)
Definition switchToDetailedView (s : State)
  : State * list Effect * option Pending :=
  match selectedPlanet s with
  | Some _ =>
      let '(s1, shown, k) := generateExoplanet_start s in
      (setViewMode detailed s1, shown, k)
  | None => (s, [], None)
  end.

End Formatting.

(** *** Selection and search *)

Definition handlePlanetSelect (planet : UniversePlanetData) (s : State) : State :=
  setDiscoveredPlanets ({[ id planet ]} ∪ discoveredPlanets s)
    (setPlanetName (name planet)
      (setSelectedPlanet (Some planet) s)).

(** The test of [universePlanets.find] in [handleSearch]. *)
Definition nameIncludes (query : string) (p : UniversePlanetData) : bool :=
  includes (toLowerCase (name p)) (toLowerCase query).

Definition handleSearch (query : string) (s : State) : State :=
  let s1 := setSearchQuery query s in
  if truthy query then
    match find (nameIncludes query) (universePlanets s) with
    | Some foundPlanet =>
        setPlanetName (name foundPlanet) (setSelectedPlanet (Some foundPlanet) s1)
    | None => s1
    end
  else s1.

(** The [onClose] of the overlay. *)
Definition closeOverlay (s : State) : State := setSelectedPlanet None s.

(** The [onClick] of the button Back to Universe of the detailed view. *)
Definition backToUniverse (s : State) : State := setViewMode universe s.

(** The user events of the universe view that the selection state machine
    reacts to. *)
Inductive Event :=
| Select (planet : UniversePlanetData)
| Search (query : string)
| Close.

Definition step (s : State) (e : Event) : State :=
  match e with
  | Select planet => handlePlanetSelect planet s
  | Search query => handleSearch query s
  | Close => closeOverlay s
  end.

Definition run (s : State) (events : list Event) : State :=
  fold_left step events s.

(** *** The random pick *)

(** [generateRandomPlanet]; [draw] is the result of its [Math.random()].
    Reading [name] of an element that is not there throws a TypeError,
    which is [None]. *)
Definition generateRandomPlanet (draw : R) (s : State) : option State :=
  if (0 <? length (universePlanets s))%nat then
    let i := Math_floor (draw * INR (length (universePlanets s))) in
    match (if (i <? 0)%Z then None else universePlanets s !! Z.to_nat i) with
    | Some randomPlanet =>
        Some (setPlanetName (name randomPlanet)
                (setSearchQuery (name randomPlanet) s))
    | None => None
    end
  else Some s.

(** *** Loading the records *)

(** What the request of [loadNASAData] comes to: [fetch] rejects, the
    response is not [ok], its body is not JSON, or the body decodes to
    records. *)
Inductive FetchOutcome :=
| fetch_rejected
| fetch_not_ok
| fetch_body_invalid
| fetch_json (data : list NASAExoplanetData).

Definition dataLoadingError : Effect :=
  toast "Data Loading Error"
        "Failed to load NASA exoplanet data. Please try again."
        true.

(** [loadNASAData], from its call to its completion, on the module
    variable [nasaExoplanetsCache] ([None] is [null]; an array, even an
    empty one, is truthy) and the state.  The request is made only when the
    cache is empty. *)
Definition loadNASAData (outcome : FetchOutcome)
    (nasaExoplanetsCache : option (list NASAExoplanetData)) (s : State)
  : option (list NASAExoplanetData) * State * list Effect :=
  match nasaExoplanetsCache with
  | Some cached => (nasaExoplanetsCache, setAvailablePlanets cached s, [])
  | None =>
      match outcome with
      | fetch_json data => (Some data, setAvailablePlanets data s, [])
      | _ =>
          (None, s,
           [ console_error "Error loading NASA data:"; dataLoadingError ])
      end
  end.

(** *** The similarity index of the detail view *)

(** The constant [esi] of [generateExoplanet]. *)
Definition esiOf (nasaPlanet : NASAExoplanetData) : R :=
  Math_max 0 (Math_min 1
    (1 - Math_abs (koi_prad nasaPlanet - 1) * 0.3
       - Math_abs (koi_teq nasaPlanet - 255) / 300)).

(** The three scores of [generateHabitabilityMetrics] that come from the
    record. *)
Definition tempScoreOf (planet : NASAExoplanetData) : R :=
  Math_max 0 (Math_min 100 (100 - Math_abs (koi_teq planet - 250) * 2)).

Definition radiusScoreOf (planet : NASAExoplanetData) : R :=
  Math_max 0 (Math_min 100 (100 - Math_abs (koi_prad planet - 1) * 30)).

Definition stellarScoreOf (planet : NASAExoplanetData) : R :=
  Math_max 0 (Math_min 100 (100 - Math_abs (koi_steff planet - 5778) / 100)).

End Explorer.

(** ** src/components/universe-viewer.tsx *)

Module UniverseViewer.
Import JS.
Local Open Scope R_scope.

(** The imported texture assets. *)
Definition planetIceBlue1 : string := "@/assets/planet-ice-blue-1.jpg".
Definition planetIceBlue2 : string := "@/assets/planet-ice-blue-2.jpg".
Definition planetIceBlue3 : string := "@/assets/planet-ice-blue-3.jpg".
Definition planetIceBlue4 : string := "@/assets/planet-ice-blue-4.jpg".
Definition planetIceBlue5 : string := "@/assets/planet-ice-blue-5.jpg".
Definition planetCyanCold1 : string := "@/assets/planet-cyan-cold-1.jpg".
Definition planetCyanCold2 : string := "@/assets/planet-cyan-cold-2.jpg".
Definition planetCyanCold3 : string := "@/assets/planet-cyan-cold-3.jpg".
Definition planetCyanCold4 : string := "@/assets/planet-cyan-cold-4.jpg".
Definition planetCyanCold5 : string := "@/assets/planet-cyan-cold-5.jpg".
Definition planetGreenTemperate1 : string := "@/assets/planet-green-temperate-1.jpg".
Definition planetGreenTemperate2 : string := "@/assets/planet-green-temperate-2.jpg".
Definition planetGreenTemperate3 : string := "@/assets/planet-green-temperate-3.jpg".
Definition planetGreenTemperate4 : string := "@/assets/planet-green-temperate-4.jpg".
Definition planetGreenTemperate5 : string := "@/assets/planet-green-temperate-5.jpg".
Definition planetYellowWarm1 : string := "@/assets/planet-yellow-warm-1.jpg".
Definition planetYellowWarm2 : string := "@/assets/planet-yellow-warm-2.jpg".
Definition planetYellowWarm3 : string := "@/assets/planet-yellow-warm-3.jpg".
Definition planetYellowWarm4 : string := "@/assets/planet-yellow-warm-4.jpg".
Definition planetYellowWarm5 : string := "@/assets/planet-yellow-warm-5.jpg".
Definition planetOrangeHot1 : string := "@/assets/planet-orange-hot-1.jpg".
Definition planetOrangeHot2 : string := "@/assets/planet-orange-hot-2.jpg".
Definition planetOrangeHot3 : string := "@/assets/planet-orange-hot-3.jpg".
Definition planetOrangeHot4 : string := "@/assets/planet-orange-hot-4.jpg".
Definition planetOrangeHot5 : string := "@/assets/planet-orange-hot-5.jpg".
Definition planetRedScorching1 : string := "@/assets/planet-red-scorching-1.jpg".
Definition planetRedScorching2 : string := "@/assets/planet-red-scorching-2.jpg".
Definition planetRedScorching3 : string := "@/assets/planet-red-scorching-3.jpg".
Definition planetRedScorching4 : string := "@/assets/planet-red-scorching-4.jpg".
Definition planetRedScorching5 : string := "@/assets/planet-red-scorching-5.jpg".

(** [arr[i]] for a number [i] that is an integer: [undefined] ([None])
    outside the array. *)
Definition item {A} (arr : list A) (i : Z) : option A :=
  if (i <? 0)%Z then None else arr !! Z.to_nat i.

(** [getTextureForTemperature], local to the component [Planet]. *)
Definition getTextureForTemperature (temp : R) (planetId : string) : option string :=
  let hash := charCodeSum 0 planetId in
  let variation := (hash mod 5 + 1)%Z in
  if lt temp 200 then
    let textures := [planetIceBlue1; planetIceBlue2; planetIceBlue3; planetIceBlue4; planetIceBlue5] in
    item textures (variation - 1)
  else if lt temp 260 then
    let textures := [planetCyanCold1; planetCyanCold2; planetCyanCold3; planetCyanCold4; planetCyanCold5] in
    item textures (variation - 1)
  else if lt temp 290 then
    let textures := [planetGreenTemperate1; planetGreenTemperate2; planetGreenTemperate3; planetGreenTemperate4; planetGreenTemperate5] in
    item textures (variation - 1)
  else if lt temp 350 then
    let textures := [planetYellowWarm1; planetYellowWarm2; planetYellowWarm3; planetYellowWarm4; planetYellowWarm5] in
    item textures (variation - 1)
  else if lt temp 450 then
    let textures := [planetOrangeHot1; planetOrangeHot2; planetOrangeHot3; planetOrangeHot4; planetOrangeHot5] in
    item textures (variation - 1)
  else
    let textures := [planetRedScorching1; planetRedScorching2; planetRedScorching3; planetRedScorching4; planetRedScorching5] in
    item textures (variation - 1).

(** [discovered: discoveredPlanets?.has(planet.id) || false], the flag
    that [planetsWithDiscovery] adds to each planet. *)
Definition discovered (discoveredPlanets : gset string) (planet : Explorer.UniversePlanetData) : bool :=
  bool_decide (Explorer.id planet ∈ discoveredPlanets).

(** [getAtmosphereColor], local to the component [Planet]. *)
Definition getAtmosphereColor (temp : R) : string :=
  if lt temp 200 then "hsl(240, 70%, 50%)"
  else if lt temp 260 then "hsl(200, 65%, 55%)"
  else if lt temp 290 then "hsl(120, 60%, 45%)"
  else if lt temp 350 then "hsl(60, 70%, 55%)"
  else if lt temp 450 then "hsl(30, 80%, 50%)"
  else "hsl(0, 85%, 45%)".

(** The material of the planet mesh. *)
Definition roughness (temperature : R) : R :=
  if gt temperature 400 then 0.2 else 0.5.

Definition metalness (temperature : R) : R :=
  if gt temperature 500 then 0.4 else 0.2.

Definition emissive (isHighlighted : bool) (temperature : R) : string :=
  if isHighlighted then getAtmosphereColor temperature
  else if gt temperature 450 then getAtmosphereColor temperature
  else "#000000".

(** [highlightedPlanet]: the planet found for the prop [searchedPlanet],
    which may be missing. *)
Definition highlightedPlanet (planets : list Explorer.UniversePlanetData)
    (searchedPlanet : option string) : option Explorer.UniversePlanetData :=
  match searchedPlanet with
  | Some query =>
      if truthy query then
        find (fun p => includes (toLowerCase (Explorer.name p)) (toLowerCase query))
             planets
      else None
  | None => None
  end.

(** [planet.id === highlightedPlanet?.id]. *)
Definition isHighlighted (planet : Explorer.UniversePlanetData)
    (highlighted : option Explorer.UniversePlanetData) : bool :=
  match highlighted with
  | Some h => String.eqb (Explorer.id planet) (Explorer.id h)
  | None => false
  end.

(** An element of [planetsWithDiscovery]: the planet and the flag added to
    it. *)
Record PlanetData := {
  planetOf : Explorer.UniversePlanetData;
  discoveredFlag : bool
}.

Definition planetsWithDiscovery (planets : list Explorer.UniversePlanetData)
    (discoveredPlanets : option (gset string)) : list PlanetData :=
  map (fun planet =>
         {| planetOf := planet;
            discoveredFlag :=
              match discoveredPlanets with
              | Some d => discovered d planet || false
              | None => false
              end |})
      planets.

(** The color of the discovery glow. *)
Definition glowColor (p : PlanetData) : string :=
  if discoveredFlag p then "#FFD700" else "#FF0000".

(** [CameraController]: the distance kept from the target planet, and the
    point where the camera comes to rest. *)
Definition cameraDistance (targetPlanet : Explorer.UniversePlanetData) : R :=
  Math_max 10 (Explorer.radius targetPlanet * 8).

Definition cameraTarget (targetPlanet : Explorer.UniversePlanetData) : R * R * R :=
  let '(x, y, z) := Explorer.position targetPlanet in
  (x, y, z + cameraDistance targetPlanet).

End UniverseViewer.

(** ** src/components/ui/planet-viewer.tsx *)

Module PlanetViewer.
Import JS.
Local Open Scope R_scope.

(** [getTemperatureFromColor]; the argument may be missing. *)
Definition getTemperatureFromColor (colorDesc : option string) : R :=
  match colorDesc with
  | None => 250
  | Some colorDesc =>
      if negb (truthy colorDesc) then 250
      else
        let lower := toLowerCase colorDesc in
        if includes lower "red" then 450
        else if includes lower "orange" then 350
        else if includes lower "yellow" then 320
        else if includes lower "green" then 260
        else if includes lower "blue" then 200
        else 250
  end.

(** [planetTemperature ?? getTemperatureFromColor(planetColor)]. *)
Definition temperatureOf (planetColor : option string) (planetTemperature : option R) : R :=
  match planetTemperature with
  | Some t => t
  | None => getTemperatureFromColor planetColor
  end.

(** [getTextureForTemperature] of the preview: the first variant. *)
Definition getTextureForTemperature (temp : R) : string :=
  if lt temp 200 then UniverseViewer.planetIceBlue1
  else if lt temp 260 then UniverseViewer.planetCyanCold1
  else if lt temp 290 then UniverseViewer.planetGreenTemperate1
  else if lt temp 350 then UniverseViewer.planetYellowWarm1
  else if lt temp 450 then UniverseViewer.planetOrangeHot1
  else UniverseViewer.planetRedScorching1.

Definition getAtmosphereColor (temp : R) : string :=
  if lt temp 200 then "hsl(240, 70%, 50%)"
  else if lt temp 260 then "hsl(200, 65%, 55%)"
  else if lt temp 290 then "hsl(120, 60%, 45%)"
  else if lt temp 350 then "hsl(60, 70%, 55%)"
  else if lt temp 450 then "hsl(30, 80%, 50%)"
  else "hsl(0, 85%, 45%)".

(** The texture that the component [Planet] loads for its props. *)
Definition textureUrl (planetColor : option string) (planetTemperature : option R) : string :=
  getTextureForTemperature (temperatureOf planetColor planetTemperature).

End PlanetViewer.

(** ** src/components/starfield-background.tsx *)

Module StarfieldBackground.
Import JS.
Local Open Scope R_scope.

Record Star := {
  x : R;
  y : R;
  size : R;
  brightness : R;
  twinkleSpeed : R;
  twinkleOffset : R;
  velocityX : R;
  velocityY : R
}.

(** [numStars] for a canvas of [width] by [height] pixels, which are
    non-negative integers. *)
Definition numStars (width height : nat) : nat :=
  Z.to_nat (Math_floor (INR width * INR height / 8000)).

(** The star pushed at the iteration [i] of the loop of [generateStars]:
    it takes eight draws, in the order of the fields. *)
Definition starOf (width height : nat) (random : nat -> R) (i : nat) : Star :=
  {| x := random (8 * i)%nat * INR width;
     y := random (8 * i + 1)%nat * INR height;
     size := random (8 * i + 2)%nat * 2 + 0.5;
     brightness := random (8 * i + 3)%nat * 0.8 + 0.2;
     twinkleSpeed := random (8 * i + 4)%nat * 0.02 + 0.005;
     twinkleOffset := random (8 * i + 5)%nat * Math_PI * 2;
     velocityX := (random (8 * i + 6)%nat - 0.5) * 0.175;
     velocityY := (random (8 * i + 7)%nat - 0.5) * 0.0875 |}.

Definition generateStars (width height : nat) (random : nat -> R) : list Star :=
  map (starOf width height random) (seq 0 (numStars width height)).

(** The update of one star in [animate]: the move, then the four tests of
    the wrap, in their order. *)
Definition moveStar (width height : nat) (star : Star) : Star :=
  let x1 := x star + velocityX star in
  let y1 := y star + velocityY star in
  let x2 := if gt x1 (INR width + 10) then -10 else x1 in
  let x3 := if lt x2 (-10) then INR width + 10 else x2 in
  let y2 := if gt y1 (INR height + 10) then -10 else y1 in
  let y3 := if lt y2 (-10) then INR height + 10 else y2 in
  {| x := x3;
     y := y3;
     size := size star;
     brightness := brightness star;
     twinkleSpeed := twinkleSpeed star;
     twinkleOffset := twinkleOffset star;
     velocityX := velocityX star;
     velocityY := velocityY star |}.

(** The values with which a star is drawn at the time [time]. *)
Definition twinkle (time : R) (star : Star) : R :=
  Math_sin (time * twinkleSpeed star + twinkleOffset star) * 0.3 + 0.7.

Definition opacity (time : R) (star : Star) : R :=
  brightness star * twinkle time star.

Definition hue (star : Star) : R := 100 + Math_sin (twinkleOffset star) * 60.

Definition saturation (star : Star) : R :=
  20 + Math_sin (twinkleOffset star * 2) * 30.

(** Whether the glow of the larger stars is drawn. *)
Definition hasGlow (star : Star) : bool := gt (size star) 1.5.

(** One call of [animate]: the clock advances and every star moves. *)
Definition animate (width height : nat) (frame : R * list Star) : R * list Star :=
  let '(time, stars) := frame in
  (time + 0.016, map (moveStar width height) stars).

(** [n] frames on a canvas that keeps its size. *)
Fixpoint frames (width height : nat) (n : nat) (frame : R * list Star) : R * list Star :=
  match n with
  | O => frame
  | S n' => frames width height n' (animate width height frame)
  end.

End StarfieldBackground.

(** ** Vocabulary of the statements *)

Module Spec.
Import JS Explorer UniverseViewer.
Local Open Scope R_scope.

(** The distance of a planet from the vertical axis of the scene. *)
Definition horizontalRadius (p : UniversePlanetData) : R :=
  let '(x, _, z) := position p in sqrt (x * x + z * z).

(** The temperature band of a texture: the five variants of its family. *)
Definition bandTextures (temp : R) : list string :=
  if lt temp 200 then
    [planetIceBlue1; planetIceBlue2; planetIceBlue3; planetIceBlue4; planetIceBlue5]
  else if lt temp 260 then
    [planetCyanCold1; planetCyanCold2; planetCyanCold3; planetCyanCold4; planetCyanCold5]
  else if lt temp 290 then
    [planetGreenTemperate1; planetGreenTemperate2; planetGreenTemperate3; planetGreenTemperate4; planetGreenTemperate5]
  else if lt temp 350 then
    [planetYellowWarm1; planetYellowWarm2; planetYellowWarm3; planetYellowWarm4; planetYellowWarm5]
  else if lt temp 450 then
    [planetOrangeHot1; planetOrangeHot2; planetOrangeHot3; planetOrangeHot4; planetOrangeHot5]
  else
    [planetRedScorching1; planetRedScorching2; planetRedScorching3; planetRedScorching4; planetRedScorching5].

(** [clamp x lo hi]: [x] brought back into the interval from [lo] to [hi]. *)
Definition clamp (x lo hi : R) : R :=
  if Rlt_dec x lo then lo else if Rlt_dec hi x then hi else x.

(** The character codes of a string, and their sum. *)
Fixpoint charCodes (s : string) : list Z :=
  match s with
  | EmptyString => []
  | String c s' => Z.of_nat (nat_of_ascii c) :: charCodes s'
  end.

Definition sumZ (l : list Z) : Z := fold_right Z.add 0%Z l.

(** Every character of the string is white space. *)
Fixpoint allWhiteSpace (s : string) : bool :=
match s with
| EmptyString => true
| String c s' => isWhiteSpace c && allWhiteSpace s'
end.

(** A name is blank when [trim] leaves nothing of it. *)
Definition blank (s : string) : Prop := trim s = "".

(** A synthetic record with the identifier P<i>. *)
Definition syntheticRecord (i : nat) : NASAExoplanetData :=
  {| kepoi_name := "P" +:+ pretty i;
     koi_period := 10 + INR i;
     koi_prad := 0.25 + INR i / 4;
     koi_teq := 180 + INR i * 5;
     koi_steff := 5778;
     koi_srad := 1;
     koi_insol := 1;
     koi_disposition := "CANDIDATE";
     koi_kepmag := 14;
     ra_str := "19h00m00s";
     dec_str := "+45d00m00s" |}.

Definition syntheticRecords (n : nat) : list NASAExoplanetData :=
  map syntheticRecord (seq 0 n).

(** Printers and draws used where a statement needs concrete ones. *)
Definition noFixed (_ : R) (_ : nat) : string := "".
Definition noString (_ : R) : string := "".
Definition halfDraws (_ : nat) : R := 0.5.

(** The object generated at index [i] from the synthetic record P<i>. *)
Definition syntheticPlanet (i : nat) : UniversePlanetData :=
  universePlanetOf noFixed noString halfDraws i (syntheticRecord i).

(** The session after the data set of [n] synthetic records was loaded
    and the universe generated from it. *)
Definition loadedSession (n : nat) : State :=
  dataLoaded noFixed noString halfDraws (syntheticRecords n) initialState.

(** A record of one Earth radius at 255 K. *)
Definition earthTwin : NASAExoplanetData :=
  {| kepoi_name := "K00001.01";
     koi_period := 365;
     koi_prad := 1;
     koi_teq := 255;
     koi_steff := 5778;
     koi_srad := 1;
     koi_insol := 1;
     koi_disposition := "CANDIDATE";
     koi_kepmag := 14;
     ra_str := "19h00m00s";
     dec_str := "+45d00m00s" |}.

(** A record like the synthetic ones but for its identifier. *)
Definition recordNamed (ident : string) : NASAExoplanetData :=
  {| kepoi_name := ident;
     koi_period := 10;
     koi_prad := 1;
     koi_teq := 250;
     koi_steff := 5778;
     koi_srad := 1;
     koi_insol := 1;
     koi_disposition := "CANDIDATE";
     koi_kepmag := 14;
     ra_str := "19h00m00s";
     dec_str := "+45d00m00s" |}.

(** A data set of two records, the second of which has a blank
    identifier, loaded and generated. *)
Definition blankNameData : list NASAExoplanetData :=
  [recordNamed "K1"; recordNamed " "].

Definition blankNameSession : State :=
  dataLoaded noFixed noString halfDraws blankNameData initialState.

(** The two notifications of a generation that fails. *)
Definition nameRequired : Effect :=
  toast "Planet Name Required"
        "Please enter an exoplanet name or generate a random one."
        true.

Definition planetNotFound : Effect :=
  toast "Planet Not Found"
        "This planet is not in the NASA habitable zone database. Try a random one!"
        true.

(** The notification of a generation that succeeds. *)
Definition exoplanetFound (nasaPlanet : NASAExoplanetData) : Effect :=
  toast "Exoplanet Found!"
        ("Real NASA data loaded for " +:+ kepoi_name nasaPlanet)
        false.

(** The identifiers of the planets that a list of events selects by a
    click. *)
Fixpoint selectedIds (events : list Event) : list string :=
  match events with
  | [] => []
  | Select planet :: rest => id planet :: selectedIds rest
  | _ :: rest => selectedIds rest
  end.

(** The planets that a list of events clicks on. *)
Fixpoint clickedPlanets (events : list Event) : list UniversePlanetData :=
  match events with
  | [] => []
  | Select planet :: rest => planet :: clickedPlanets rest
  | _ :: rest => clickedPlanets rest
  end.

(** A star is within the margin of 10 pixels around the canvas. *)
Definition insideMargin (width height : nat) (star : StarfieldBackground.Star) : Prop :=
  -10 <= StarfieldBackground.x star <= INR width + 10
  /\ -10 <= StarfieldBackground.y star <= INR height + 10.

(** The ranges of the attributes with which a star is generated. *)
Definition freshStar (width height : nat) (star : StarfieldBackground.Star) : Prop :=
  0 <= StarfieldBackground.x star <= INR width
  /\ 0 <= StarfieldBackground.y star <= INR height
  /\ 0.5 <= StarfieldBackground.size star <= 2.5
  /\ 0.2 <= StarfieldBackground.brightness star <= 1
  /\ 0.005 <= StarfieldBackground.twinkleSpeed star <= 0.025
  /\ 0 <= StarfieldBackground.twinkleOffset star <= 2 * PI
  /\ -0.0875 <= StarfieldBackground.velocityX star <= 0.0875
  /\ -0.04375 <= StarfieldBackground.velocityY star <= 0.04375.

(** Every draw of [Math.random()] is at least 0 and less than 1. *)
Definition validDraws (random : nat -> R) : Prop :=
  forall k, 0 <= random k < 1.

End Spec.

(** * Properties *)

Import JS Explorer UniverseViewer Spec.
Local Open Scope R_scope.

(** ** Comparisons of numbers *)

Lemma lt_true (a b : R) : a < b -> lt a b = true.
Proof. intros H. unfold lt. destruct (Rlt_dec a b); [reflexivity | contradiction]. Qed.

Lemma lt_false (a b : R) : b <= a -> lt a b = false.
Proof. intros H. unfold lt. destruct (Rlt_dec a b); [lra | reflexivity]. Qed.

Lemma lt_spec (a b : R) : reflect (a < b) (lt a b).
Proof. unfold lt. destruct (Rlt_dec a b); constructor; assumption. Qed.

(** Decide every comparison of the goal, keeping the consistent cases. *)
Ltac js_compare :=
  repeat match goal with
    | |- context [lt ?a ?b] => destruct (lt_spec a b); try lra
    end.

(** ** The string built-ins *)

Lemma prefix_iff_append (sub s : string) :
  String.prefix sub s = true <-> exists post, s = sub +:+ post.
Proof.
  revert s. induction sub as [| c sub IH]; intros s.
  - split; [intros _; exists s; reflexivity | intros _; destruct s; reflexivity].
  - destruct s as [| d s]; cbn.
    + split; [discriminate | intros [post H]; discriminate].
    + destruct (Ascii.ascii_dec c d) as [-> | Hne].
      * rewrite IH. split; intros [post H]; exists post.
        -- rewrite H. reflexivity.
        -- injection H as H. exact H.
      * split; [discriminate | intros [post H]; injection H as H _; congruence].
Qed.

(** [includes] is the substring test. *)
Lemma includes_iff_substring (s sub : string) :
  includes s sub = true <-> exists pre post, s = pre +:+ sub +:+ post.
Proof.
  split.
  - induction s as [| c s IH]; cbn [includes]; intros H;
      apply orb_true_iff in H as [H | H].
    + apply prefix_iff_append in H as [post H]. exists "", post. exact H.
    + discriminate.
    + apply prefix_iff_append in H as [post H]. exists "", post. exact H.
    + destruct (IH H) as (pre & post & ->). exists (String c pre), post. reflexivity.
  - intros (pre & post & ->). induction pre as [| c pre IH].
    + assert (Hp : String.prefix sub ("" +:+ sub +:+ post) = true)
        by (apply prefix_iff_append; exists post; reflexivity).
      destruct ("" +:+ sub +:+ post); cbn [includes]; rewrite Hp; reflexivity.
    + change (String c pre +:+ sub +:+ post) with (String c (pre +:+ sub +:+ post)).
      cbn [includes]. rewrite IH. apply orb_true_r.
Qed.

Lemma allWhiteSpace_trimStart (s : string) :
  allWhiteSpace (trimStart s) = allWhiteSpace s.
Proof.
  induction s as [| c s IH]; cbn; [reflexivity |].
  destruct (isWhiteSpace c) eqn:E; cbn; [exact IH | rewrite E; reflexivity].
Qed.

Lemma trimEnd_empty (s : string) : trimEnd s = "" <-> allWhiteSpace s = true.
Proof.
  induction s as [| c s IH]; cbn; [tauto |].
  destruct (trimEnd s) eqn:E.
  - destruct (isWhiteSpace c); cbn.
    + rewrite <- IH. tauto.
    + split; discriminate.
  - split; [discriminate |]. intros H. apply andb_true_iff in H as [_ H].
    apply IH in H. discriminate.
Qed.

(** A name is blank exactly when it consists of white space. *)
Lemma blank_iff_allWhiteSpace (s : string) : blank s <-> allWhiteSpace s = true.
Proof.
  unfold blank, trim. rewrite trimEnd_empty. rewrite allWhiteSpace_trimStart. tauto.
Qed.

Example toLowerCase_identifier : toLowerCase "K03034.01 Ab" = "k03034.01 ab".
Proof. reflexivity. Qed.

Example includes_is_case_sensitive :
  includes "K03034.01" "k03" = false
  /\ includes (toLowerCase "K03034.01") (toLowerCase "K03") = true.
Proof. split; reflexivity. Qed.

(** ** C1: the generator truncates and keeps the identifiers *)

Section SceneGenerator.

Variable toFixed : R -> nat -> string.
Variable toString : R -> string.
Variable random : nat -> R.

Abbreviation planetsOf' := (planetsOf toFixed toString random).
Abbreviation universePlanetOf' := (universePlanetOf toFixed toString random).

Lemma planetsOf_lookup (nasaData : list NASAExoplanetData) (i : nat) :
  planetsOf' nasaData !! i = universePlanetOf' i <$> take 50 nasaData !! i.
Proof. unfold planetsOf, slice0. apply list_lookup_imap. Qed.

Lemma planetsOf_lookup_Some (nasaData : list NASAExoplanetData) (i : nat) p :
  planetsOf' nasaData !! i = Some p ->
  (i < 50)%nat /\ exists r, nasaData !! i = Some r /\ p = universePlanetOf' i r.
Proof.
  rewrite planetsOf_lookup. intros H.
  destruct (take 50 nasaData !! i) as [r|] eqn:E; [|discriminate].
  apply lookup_take_Some in E as [E Hi]. injection H as <-.
  split; [assumption | exists r; split; [assumption | reflexivity]].
Qed.

Lemma planetsOf_length (nasaData : list NASAExoplanetData) :
  length (planetsOf' nasaData) = Nat.min (length nasaData) 50.
Proof.
  unfold planetsOf, slice0. rewrite length_imap, length_take. lia.
Qed.

Lemma planetsOf_ids (nasaData : list NASAExoplanetData) :
  id <$> planetsOf' nasaData = take 50 (kepoi_name <$> nasaData).
Proof.
  apply list_eq. intros i.
  rewrite list_lookup_fmap, planetsOf_lookup, <- fmap_take, list_lookup_fmap.
  destruct (take 50 nasaData !! i); reflexivity.
Qed.

(** C1. Over any record list, [generateUniversePlanets] stores exactly
    [min N 50] objects; the object at index [i] comes from the record at
    index [i], which is one of the 50 leading ones, and its [id] and its
    [name] are that record's identifier; the identifiers of the objects
    are the truncation of the identifiers of the records, and they are
    pairwise distinct when those of the records are. *)
Theorem generate_truncates_and_keeps_identifiers
    (nasaData : list NASAExoplanetData) (s : State) :
  let planets :=
    universePlanets (generateUniversePlanets toFixed toString random nasaData s) in
  length planets = Nat.min (length nasaData) 50
  /\ id <$> planets = take 50 (kepoi_name <$> nasaData)
  /\ (forall i p, planets !! i = Some p ->
        (i < 50)%nat
        /\ exists r, nasaData !! i = Some r
                     /\ id p = kepoi_name r /\ name p = kepoi_name r)
  /\ (NoDup (kepoi_name <$> nasaData) -> NoDup (id <$> planets)).
Proof.
  cbn. split; [apply planetsOf_length |].
  split; [apply planetsOf_ids |].
  split.
  - intros i p Hp.
    apply planetsOf_lookup_Some in Hp as [Hi (r & Hr & ->)].
    split; [exact Hi |]. exists r. split; [exact Hr | split; reflexivity].
  - intros Hnd. rewrite planetsOf_ids.
    eapply sublist_NoDup; [exact Hnd | apply sublist_take].
Qed.

End SceneGenerator.

Lemma generate_truncates_and_keeps_identifiers_witness :
  let planets :=
    universePlanets (generateUniversePlanets noFixed noString halfDraws
                       (syntheticRecords 3) initialState) in
  NoDup (kepoi_name <$> syntheticRecords 3)
  /\ length planets = 3%nat
  /\ NoDup (id <$> planets).
Proof.
  pose proof (generate_truncates_and_keeps_identifiers noFixed noString halfDraws
                (syntheticRecords 3) initialState) as (Hlen & _ & _ & Hnd).
  assert (Hsrc : NoDup (kepoi_name <$> syntheticRecords 3)).
  { apply (bool_decide_unpack _). vm_compute. exact I. }
  split; [exact Hsrc | split; [exact Hlen | exact (Hnd Hsrc)]].
Defined.

(** ** C2: the color bands *)

(** Against C2 as written: the labels of the fourth and of the seventh band
    are written without a hyphen.  At 300 K and at 450 K the function does
    not return the hyphenated labels. *)
Lemma color_labels_have_no_hyphen :
  290 <= 300 < 320
  /\ getPlanetColor 300 = "yellowgreen" /\ getPlanetColor 300 <> "yellow-green"
  /\ 400 <= 450 < 500
  /\ getPlanetColor 450 = "redorange" /\ getPlanetColor 450 <> "red-orange".
Proof.
  assert (H300 : getPlanetColor 300 = "yellowgreen").
  { unfold getPlanetColor. js_compare. reflexivity. }
  assert (H450 : getPlanetColor 450 = "redorange").
  { unfold getPlanetColor. js_compare. reflexivity. }
  rewrite H300, H450. repeat split; try lra; discriminate.
Qed.

(** Evaluate [getPlanetColor] under the bounds at hand. *)
Ltac color_band :=
  intros; unfold getPlanetColor; js_compare; first [reflexivity | discriminate].

(** C2 (amended). [getPlanetColor] is a total function of the temperature:
    every real temperature falls in exactly one of the bands below, whose
    lower bounds are closed; the labels are [yellowgreen] and [redorange].
    Exactly 200 is not blue, 260 is green and not cyan, 150 is blue and 500
    is red.  The same temperature always gives the same label. *)
Theorem getPlanetColor_bands (t : R) :
  (t < 200 -> getPlanetColor t = "blue")
  /\ (200 <= t < 260 -> getPlanetColor t = "cyan")
  /\ (260 <= t < 290 -> getPlanetColor t = "green")
  /\ (290 <= t < 320 -> getPlanetColor t = "yellowgreen")
  /\ (320 <= t < 350 -> getPlanetColor t = "yellow")
  /\ (350 <= t < 400 -> getPlanetColor t = "orange")
  /\ (400 <= t < 500 -> getPlanetColor t = "redorange")
  /\ (500 <= t -> getPlanetColor t = "red")
  /\ (t < 200 \/ 200 <= t < 260 \/ 260 <= t < 290 \/ 290 <= t < 320
      \/ 320 <= t < 350 \/ 350 <= t < 400 \/ 400 <= t < 500 \/ 500 <= t)
  /\ getPlanetColor 200 <> "blue"
  /\ getPlanetColor 260 = "green" /\ getPlanetColor 260 <> "cyan"
  /\ getPlanetColor 150 = "blue"
  /\ getPlanetColor 500 = "red"
  /\ (forall t', t' = t -> getPlanetColor t' = getPlanetColor t).
Proof.
  assert (Hcover : t < 200 \/ 200 <= t < 260 \/ 260 <= t < 290 \/ 290 <= t < 320
                   \/ 320 <= t < 350 \/ 350 <= t < 400 \/ 400 <= t < 500 \/ 500 <= t)
    by lra.
  assert (Hsame : forall t', t' = t -> getPlanetColor t' = getPlanetColor t)
    by (intros t' ->; reflexivity).
  repeat (split; [color_band |]).
  split; [exact Hcover |].
  repeat (split; [color_band |]).
  exact Hsame.
Qed.

Lemma getPlanetColor_bands_witness :
  290 <= 305 < 320 /\ getPlanetColor 305 = "yellowgreen".
Proof.
  assert (H : 290 <= 305 < 320) by lra.
  split; [exact H | ].
  exact (proj1 (proj2 (proj2 (proj2 (getPlanetColor_bands 305)))) H).
Defined.

(** ** C3, C4, C5: placement and size of the objects *)

Lemma ringRadius_pos (index : nat) : 0 < ringRadius index.
Proof.
  unfold ringRadius. pose proof (pos_INR (index mod 7)). nra.
Qed.

Lemma ringRadius_periodic (index : nat) : ringRadius (index + 7) = ringRadius index.
Proof.
  unfold ringRadius. replace (index + 7)%nat with (index + 1 * 7)%nat by lia.
  rewrite Nat.Div0.mod_add. reflexivity.
Qed.

(** A point at angle [a] on the circle of radius [r] is at distance [r]
    from the axis. *)
Lemma circle_point_radius (a r : R) :
  0 <= r -> sqrt (cos a * r * (cos a * r) + sin a * r * (sin a * r)) = r.
Proof.
  intros Hr.
  replace (cos a * r * (cos a * r) + sin a * r * (sin a * r))
    with (r * r * ((sin a)² + (cos a)²)) by (unfold Rsqr; ring).
  rewrite sin2_cos2, Rmult_1_r. apply sqrt_square. exact Hr.
Qed.

Lemma displayRadius_clamp (x : R) : displayRadius x = clamp x 0.5 3.
Proof.
  unfold displayRadius, clamp, Math_max, Math_min, Rmax, Rmin.
  repeat (destruct (Rle_dec _ _)); repeat (destruct (Rlt_dec _ _)); lra.
Qed.

(** For an index below N, dividing by 50 and dividing by N give the same
    angle exactly when the index is 0 or N is 50. *)
Lemma angle_adapts_iff (i N : nat) (P : Prop) :
  (0 < N)%nat -> (P -> N = 50%nat) -> (N = 50%nat -> P) ->
  (INR i / 50 * (12 * PI) = INR i / INR N * (12 * PI) <-> i = 0%nat \/ P).
Proof.
  intros HN Hto Hfrom.
  pose proof PI_RGT_0 as Hpi.
  pose proof (lt_0_INR N HN) as HNpos.
  assert (H50 : INR 50 = 50) by (rewrite INR_IZR_INZ; reflexivity).
  split.
  - intros Heq. destruct i as [| i]; [left; reflexivity | right].
    apply Hfrom. apply INR_eq. rewrite H50.
    assert (Hi : 0 < INR (S i)) by (apply lt_0_INR; lia).
    assert (Hq : INR (S i) / 50 = INR (S i) / INR N) by nra.
    assert (Hcross : INR (S i) * INR N = INR (S i) * 50).
    { apply (f_equal (fun q => q * 50 * INR N)) in Hq. field_simplify in Hq; lra. }
    nra.
  - intros [-> | HP].
    + simpl INR. unfold Rdiv. rewrite !Rmult_0_l. reflexivity.
    + rewrite (Hto HP), H50. reflexivity.
Qed.

Section SceneGeometry.

Variable toFixed : R -> nat -> string.
Variable toString : R -> string.
Variable random : nat -> R.

Abbreviation planets_of := (planetsOf toFixed toString random).

Lemma planetsOf_position (nasaData : list NASAExoplanetData) (i : nat) p :
  planets_of nasaData !! i = Some p ->
  position p = (cos (placementAngle i) * ringRadius i,
                placementHeight (random i),
                sin (placementAngle i) * ringRadius i).
Proof.
  intros H. apply planetsOf_lookup_Some in H as [_ (r & _ & ->)]. reflexivity.
Qed.

Lemma planetsOf_horizontalRadius (nasaData : list NASAExoplanetData) (i : nat) p :
  planets_of nasaData !! i = Some p -> horizontalRadius p = ringRadius i.
Proof.
  intros H. unfold horizontalRadius. rewrite (planetsOf_position _ _ _ H).
  apply circle_point_radius. left. apply ringRadius_pos.
Qed.

(** C3 (amended). The angle of the object at index [i] is (i/50)·12π:
    the divisor is the constant 50, the cap of the generator, whatever the
    number of records.  It is (i/N)·12π for the number N of generated
    objects exactly when [i] is 0 or at least 50 records are given, N being
    50 then; and for the number N of records exactly when [i] is 0 or there
    are exactly 50 records. *)
Theorem placement_angle_divides_by_fifty
    (nasaData : list NASAExoplanetData) (i : nat) (p : UniversePlanetData) :
  planets_of nasaData !! i = Some p ->
  let angle := INR i / 50 * (12 * PI) in
  position p = (cos angle * ringRadius i,
                placementHeight (random i),
                sin angle * ringRadius i)
  /\ placementAngle i = angle
  /\ (angle = INR i / INR (length (planets_of nasaData)) * (12 * PI)
      <-> i = 0%nat \/ (50 <= length nasaData)%nat)
  /\ (angle = INR i / INR (length nasaData) * (12 * PI)
      <-> i = 0%nat \/ length nasaData = 50%nat).
Proof.
  intros H angle.
  assert (Ha : placementAngle i = angle).
  { unfold placementAngle, Math_PI, angle. field. }
  split; [| split; [| split]].
  - rewrite (planetsOf_position _ _ _ H), Ha. reflexivity.
  - exact Ha.
  - apply angle_adapts_iff.
    + apply lookup_lt_Some in H. lia.
    + intros Hn. rewrite planetsOf_length. lia.
    + intros HN. rewrite planetsOf_length in HN. lia.
  - apply angle_adapts_iff.
    + apply lookup_lt_Some in H. rewrite planetsOf_length in H. lia.
    + intros Hn. exact Hn.
    + intros HN. exact HN.
Qed.

(** C4. The object at index [i] lies at distance 112.5 + (i mod 7)·93.75
    from the vertical axis, this value being the radius that multiplies
    the cosine and the sine of the angle in its position; the distance is
    the same seven indices later;
    and over the 50 records P0..P49 the generator returns 50 objects, of
    which those at the indices 0 and 7 are P0 and P7 and lie on the same
    ring. *)
Theorem ring_radius_has_period_seven
    (nasaData : list NASAExoplanetData) (i : nat) (p : UniversePlanetData) :
  planets_of nasaData !! i = Some p ->
  horizontalRadius p = 112.5 + INR (i mod 7) * 93.75
  /\ position p = (Math_cos (placementAngle i) * (112.5 + INR (i mod 7) * 93.75),
                   placementHeight (random i),
                   Math_sin (placementAngle i) * (112.5 + INR (i mod 7) * 93.75))
  /\ (forall q, planets_of nasaData !! (i + 7)%nat = Some q ->
        horizontalRadius q = horizontalRadius p)
  /\ (length (planets_of (syntheticRecords 50)) = 50%nat
      /\ exists p0 p7,
           planets_of (syntheticRecords 50) !! 0%nat = Some p0
           /\ planets_of (syntheticRecords 50) !! 7%nat = Some p7
           /\ id p0 = "P0" /\ id p7 = "P7"
           /\ horizontalRadius p0 = horizontalRadius p7).
Proof.
  intros H. split; [| split; [| split; [| split]]].
  - rewrite (planetsOf_horizontalRadius _ _ _ H). reflexivity.
  - exact (planetsOf_position _ _ _ H).
  - intros q Hq.
    rewrite (planetsOf_horizontalRadius _ _ _ H), (planetsOf_horizontalRadius _ _ _ Hq).
    apply ringRadius_periodic.
  - rewrite planetsOf_length. unfold syntheticRecords.
    rewrite length_map, length_seq. reflexivity.
  - assert (H0 : planets_of (syntheticRecords 50) !! 0%nat
                 = Some (universePlanetOf toFixed toString random 0 (syntheticRecord 0)))
      by reflexivity.
    assert (H7 : planets_of (syntheticRecords 50) !! 7%nat
                 = Some (universePlanetOf toFixed toString random 7 (syntheticRecord 7)))
      by reflexivity.
    eexists _, _. split; [exact H0 | split; [exact H7 |]].
    split; [reflexivity | split; [reflexivity |]].
    rewrite (planetsOf_horizontalRadius _ _ _ H0), (planetsOf_horizontalRadius _ _ _ H7).
    apply (ringRadius_periodic 0).
Qed.

(** C5. The display radius of a generated object is the planetary radius
    of its record clamped to [0.5, 3]: it lies in that interval, it is the
    planetary radius itself when that lies in the interval, and it does
    not decrease when the planetary radius grows. *)
Theorem display_radius_is_clamped
    (nasaData : list NASAExoplanetData) (i : nat)
    (p : UniversePlanetData) (r : NASAExoplanetData) :
  planets_of nasaData !! i = Some p ->
  nasaData !! i = Some r ->
  radius p = clamp (koi_prad r) 0.5 3
  /\ 0.5 <= radius p <= 3
  /\ (0.5 <= koi_prad r <= 3 -> radius p = koi_prad r)
  /\ (forall j q r', planets_of nasaData !! j = Some q ->
        nasaData !! j = Some r' ->
        koi_prad r <= koi_prad r' -> radius p <= radius q).
Proof.
  intros Hp Hr.
  assert (Hrad : forall j q r', planets_of nasaData !! j = Some q ->
            nasaData !! j = Some r' -> radius q = clamp (koi_prad r') 0.5 3).
  { intros j q r' Hq Hr'.
    apply planetsOf_lookup_Some in Hq as [_ (r'' & Hr'' & ->)].
    rewrite Hr' in Hr''. injection Hr'' as <-. apply displayRadius_clamp. }
  rewrite (Hrad _ _ _ Hp Hr). split; [reflexivity |].
  split; [| split].
  - unfold clamp. repeat (destruct (Rlt_dec _ _)); lra.
  - intros Hin. unfold clamp. repeat (destruct (Rlt_dec _ _)); lra.
  - intros j q r' Hq Hr' Hle. rewrite (Hrad _ _ _ Hq Hr').
    unfold clamp. repeat (destruct (Rlt_dec _ _)); lra.
Qed.

End SceneGeometry.

(** Against C3 as written: with two records the object at index 1 is
    placed at the angle (1/50)·12π, not at (1/2)·12π, and its position is
    not the one that the half-way angle would give. *)
Lemma angle_ignores_the_number_of_objects :
  let planets := planetsOf noFixed noString halfDraws (syntheticRecords 2) in
  let adaptive := INR 1 / INR (length planets) * (12 * PI) in
  length planets = 2%nat
  /\ exists p, planets !! 1%nat = Some p
       /\ placementAngle 1 <> adaptive
       /\ position p <> (cos adaptive * ringRadius 1,
                         placementHeight (halfDraws 1),
                         sin adaptive * ringRadius 1).
Proof.
  cbv zeta.
  assert (Hlen : length (planetsOf noFixed noString halfDraws (syntheticRecords 2)) = 2%nat)
    by reflexivity.
  rewrite Hlen. split; [reflexivity |].
  exists (universePlanetOf noFixed noString halfDraws 1 (syntheticRecord 1)).
  split; [reflexivity |].
  pose proof PI_RGT_0 as Hpi.
  assert (Hadaptive : INR 1 / INR 2 * (12 * PI) = IZR 6 * PI) by (simpl; field).
  split.
  - unfold placementAngle, Math_PI. simpl INR. lra.
  - rewrite Hadaptive. cbn [position universePlanetOf].
    assert (Hsin6 : sin (IZR 6 * PI) = 0) by (apply sin_eq_0_1; exists 6%Z; reflexivity).
    assert (Hsin : 0 < sin (placementAngle 1)).
    { apply sin_gt_0; unfold placementAngle, Math_PI; simpl INR; lra. }
    pose proof (ringRadius_pos 1) as Hr.
    intros Heq. injection Heq as _ Hz. unfold Math_sin in Hz.
    rewrite Hsin6 in Hz. nra.
Qed.

Lemma placement_angle_divides_by_fifty_witness :
  let p := universePlanetOf noFixed noString halfDraws 7 (syntheticRecord 7) in
  planetsOf noFixed noString halfDraws (syntheticRecords 50) !! 7%nat = Some p
  /\ (50 <= length (syntheticRecords 50))%nat
  /\ placementAngle 7 = INR 7 / 50 * (12 * PI)
  /\ INR 7 / 50 * (12 * PI)
     = INR 7 / INR (length (planetsOf noFixed noString halfDraws (syntheticRecords 50)))
       * (12 * PI).
Proof.
  cbv zeta.
  assert (H : planetsOf noFixed noString halfDraws (syntheticRecords 50) !! 7%nat
              = Some (universePlanetOf noFixed noString halfDraws 7 (syntheticRecord 7)))
    by reflexivity.
  assert (Hn : (50 <= length (syntheticRecords 50))%nat).
  { unfold syntheticRecords. rewrite length_map, length_seq. lia. }
  pose proof (placement_angle_divides_by_fifty noFixed noString halfDraws
                (syntheticRecords 50) 7 _ H) as (_ & Ha & HN & _).
  split; [exact H | split; [exact Hn | split; [exact Ha |]]].
  exact (proj2 HN (or_intror Hn)).
Defined.

Lemma ring_radius_has_period_seven_witness :
  let planets := planetsOf noFixed noString halfDraws (syntheticRecords 50) in
  let p3 := universePlanetOf noFixed noString halfDraws 3 (syntheticRecord 3) in
  let p10 := universePlanetOf noFixed noString halfDraws 10 (syntheticRecord 10) in
  planets !! 3%nat = Some p3
  /\ planets !! 10%nat = Some p10
  /\ horizontalRadius p3 = 112.5 + INR (3 mod 7) * 93.75
  /\ horizontalRadius p10 = horizontalRadius p3.
Proof.
  cbv zeta.
  assert (H3 : planetsOf noFixed noString halfDraws (syntheticRecords 50) !! 3%nat
               = Some (universePlanetOf noFixed noString halfDraws 3 (syntheticRecord 3)))
    by reflexivity.
  assert (H10 : planetsOf noFixed noString halfDraws (syntheticRecords 50) !! (3 + 7)%nat
                = Some (universePlanetOf noFixed noString halfDraws 10 (syntheticRecord 10)))
    by reflexivity.
  pose proof (ring_radius_has_period_seven noFixed noString halfDraws
                (syntheticRecords 50) 3 _ H3) as (Hr & _ & Hper & _).
  split; [exact H3 | split; [exact H10 | split; [exact Hr | exact (Hper _ H10)]]].
Defined.

Lemma display_radius_is_clamped_witness :
  let planets := planetsOf noFixed noString halfDraws (syntheticRecords 50) in
  let p3 := universePlanetOf noFixed noString halfDraws 3 (syntheticRecord 3) in
  let p20 := universePlanetOf noFixed noString halfDraws 20 (syntheticRecord 20) in
  (planets !! 3%nat = Some p3 /\ syntheticRecords 50 !! 3%nat = Some (syntheticRecord 3))
  /\ (planets !! 20%nat = Some p20 /\ syntheticRecords 50 !! 20%nat = Some (syntheticRecord 20))
  /\ 0.5 <= koi_prad (syntheticRecord 3) <= 3
  /\ koi_prad (syntheticRecord 3) <= koi_prad (syntheticRecord 20)
  /\ radius p3 = koi_prad (syntheticRecord 3)
  /\ 0.5 <= radius p3 <= 3
  /\ radius p3 <= radius p20.
Proof.
  cbv zeta.
  assert (H3 : planetsOf noFixed noString halfDraws (syntheticRecords 50) !! 3%nat
               = Some (universePlanetOf noFixed noString halfDraws 3 (syntheticRecord 3)))
    by reflexivity.
  assert (H20 : planetsOf noFixed noString halfDraws (syntheticRecords 50) !! 20%nat
               = Some (universePlanetOf noFixed noString halfDraws 20 (syntheticRecord 20)))
    by reflexivity.
  assert (Hr3 : syntheticRecords 50 !! 3%nat = Some (syntheticRecord 3)) by reflexivity.
  assert (Hr20 : syntheticRecords 50 !! 20%nat = Some (syntheticRecord 20)) by reflexivity.
  assert (Hin : 0.5 <= koi_prad (syntheticRecord 3) <= 3) by (simpl; lra).
  assert (Hle : koi_prad (syntheticRecord 3) <= koi_prad (syntheticRecord 20))
    by (simpl; lra).
  pose proof (display_radius_is_clamped noFixed noString halfDraws
                (syntheticRecords 50) 3 _ _ H3 Hr3) as (_ & Hrange & Hid & Hmono).
  split; [exact (conj H3 Hr3) |].
  split; [exact (conj H20 Hr20) |].
  split; [exact Hin |].
  split; [exact Hle |].
  split; [exact (Hid Hin) |].
  split; [exact Hrange | exact (Hmono _ _ _ H20 Hr20 Hle)].
Defined.

(** ** C6: the discovered set only grows *)

Lemma step_keeps_discovered (s : State) (e : Event) :
  discoveredPlanets s ⊆ discoveredPlanets (step s e).
Proof.
  destruct e as [planet | query |]; cbn.
  - apply union_subseteq_r.
  - unfold handleSearch.
    destruct (truthy query); [| reflexivity].
    destruct (find (nameIncludes query) (universePlanets s)); reflexivity.
  - reflexivity.
Qed.

Lemma run_keeps_discovered (events : list Event) (s : State) :
  discoveredPlanets s ⊆ discoveredPlanets (run s events).
Proof.
  revert s. induction events as [| e events IH]; intros s; cbn.
  - reflexivity.
  - etransitivity; [apply (step_keeps_discovered s e) | apply IH].
Qed.

(** C6. Over every sequence of selections, searches and closings run from
    any state of the session, an identifier that is in the discovered set
    is still in it afterwards, so the [discovered] flag that the viewer
    shows for an object stays true; and selecting an object whose identifier
    is already in the set leaves the set, hence its size, as it is. *)
Theorem discovered_is_monotone_and_select_idempotent
    (s : State) (events : list Event) (ident : string) (planet : UniversePlanetData) :
  (ident ∈ discoveredPlanets s -> ident ∈ discoveredPlanets (run s events))
  /\ (discovered (discoveredPlanets s) planet = true ->
      discovered (discoveredPlanets (run s events)) planet = true)
  /\ (id planet ∈ discoveredPlanets s ->
      discoveredPlanets (handlePlanetSelect planet s) = discoveredPlanets s
      /\ size (discoveredPlanets (handlePlanetSelect planet s))
         = size (discoveredPlanets s)).
Proof.
  pose proof (run_keeps_discovered events s) as Hsub.
  split; [| split].
  - intros Hin. apply Hsub, Hin.
  - unfold discovered. intros Hd.
    apply bool_decide_eq_true in Hd. apply bool_decide_eq_true. apply Hsub, Hd.
  - intros Hin.
    assert (Heq : discoveredPlanets (handlePlanetSelect planet s) = discoveredPlanets s).
    { cbn. apply leibniz_equiv. apply subseteq_union_1.
      apply singleton_subseteq_l, Hin. }
    split; [exact Heq | rewrite Heq; reflexivity].
Qed.

(** ** C7: a search that finds nothing keeps the selection *)

Lemma find_none_of_all_false {A} (f : A -> bool) (l : list A) :
  (forall x, x ∈ l -> f x = false) -> find f l = None.
Proof.
  unfold find. induction l as [| a l IH]; intros H; cbn.
  - reflexivity.
  - rewrite (H a) by apply list_elem_of_here.
    apply IH. intros x Hx. apply H. apply list_elem_of_further, Hx.
Qed.

Lemma truthy_nonempty (s : string) : s <> "" -> truthy s = true.
Proof. destruct s; [congruence | reflexivity]. Qed.

(** C7. In a state where an object is selected, a search with a string
    that is not empty and that the lower-cased name of no object includes
    (after lower-casing it too) changes the stored search string and nothing
    else: the object stays selected. *)
Theorem failed_search_keeps_selection
    (s : State) (query : string) (p : UniversePlanetData) :
  selectedPlanet s = Some p ->
  query <> "" ->
  (forall q, q ∈ universePlanets s ->
     includes (toLowerCase (name q)) (toLowerCase query) = false) ->
  handleSearch query s = setSearchQuery query s
  /\ selectedPlanet (handleSearch query s) = Some p
  /\ searchQuery (handleSearch query s) = query
  /\ planetName (handleSearch query s) = planetName s
  /\ discoveredPlanets (handleSearch query s) = discoveredPlanets s
  /\ universePlanets (handleSearch query s) = universePlanets s
  /\ viewMode (handleSearch query s) = viewMode s
  /\ exoplanetData (handleSearch query s) = exoplanetData s
  /\ isLoading (handleSearch query s) = isLoading s
  /\ availablePlanets (handleSearch query s) = availablePlanets s.
Proof.
  intros Hsel Hq Hno.
  assert (Heq : handleSearch query s = setSearchQuery query s).
  { unfold handleSearch. rewrite (truthy_nonempty _ Hq).
    rewrite (find_none_of_all_false (nameIncludes query) _ Hno). reflexivity. }
  rewrite Heq. cbn. repeat split. exact Hsel.
Qed.

(** ** C8: the atmosphere compositions *)

(** C8. The composition is chosen by the regime of the temperature, below
    220, from 220 to below 280, and from 280 up, which cover every
    temperature and exclude one another; in each regime the percentages add
    up to 100. *)
Theorem atmosphere_sums_to_100 (t : R) :
  totalPercentage (generateAtmosphereData t) = 100%Z
  /\ (t < 220 ->
      map component (generateAtmosphereData t) = ["N2"; "CO2"; "H2O"; "CH4"]
      /\ map percentage (generateAtmosphereData t) = [45; 35; 15; 5]%Z)
  /\ (220 <= t < 280 ->
      map component (generateAtmosphereData t) = ["H2O"; "N2"; "CO2"; "O2"]
      /\ map percentage (generateAtmosphereData t) = [40; 30; 20; 10]%Z)
  /\ (280 <= t ->
      map component (generateAtmosphereData t) = ["CO2"; "H2O"; "N2"; "SO2"]
      /\ map percentage (generateAtmosphereData t) = [50; 25; 15; 10]%Z)
  /\ (t < 220 \/ 220 <= t < 280 \/ 280 <= t).
Proof.
  split; [| repeat split].
  - unfold generateAtmosphereData. js_compare; reflexivity.
  - unfold generateAtmosphereData. js_compare. reflexivity.
  - unfold generateAtmosphereData. js_compare. reflexivity.
  - unfold generateAtmosphereData. js_compare. reflexivity.
  - unfold generateAtmosphereData. js_compare. reflexivity.
  - unfold generateAtmosphereData. js_compare. reflexivity.
  - unfold generateAtmosphereData. js_compare. reflexivity.
  - lra.
Qed.

Lemma atmosphere_sums_to_100_witness :
  220 <= 250 < 280
  /\ map component (generateAtmosphereData 250) = ["H2O"; "N2"; "CO2"; "O2"]
  /\ totalPercentage (generateAtmosphereData 250) = 100%Z.
Proof.
  assert (H : 220 <= 250 < 280) by lra.
  pose proof (atmosphere_sums_to_100 250) as (Hsum & _ & Hmid & _).
  split; [exact H | split; [exact (proj1 (Hmid H)) | exact Hsum]].
Defined.

Lemma planetsOf_names_exclude toFixed toString random
    (nasaData : list NASAExoplanetData) (query : string) :
  forallb (fun r => negb (includes (toLowerCase (kepoi_name r)) (toLowerCase query)))
          (take 50 nasaData) = true ->
  forall q, q ∈ planetsOf toFixed toString random nasaData ->
    includes (toLowerCase (name q)) (toLowerCase query) = false.
Proof.
  intros Hall q Hq.
  apply elem_of_lookup_imap_1 in Hq as (i & r & -> & Hr).
  rewrite forallb_forall in Hall.
  apply negb_true_iff, Hall. cbn.
  apply list_elem_of_In. eapply list_elem_of_lookup_2. exact Hr.
Qed.

Lemma discovered_is_monotone_and_select_idempotent_witness :
  let s := handlePlanetSelect (syntheticPlanet 3) (loadedSession 50) in
  let events := [Search "zzz"; Close; Select (syntheticPlanet 7); Search "p1"] in
  "P3" ∈ discoveredPlanets s
  /\ id (syntheticPlanet 3) ∈ discoveredPlanets s
  /\ "P3" ∈ discoveredPlanets (run s events)
  /\ size (discoveredPlanets (handlePlanetSelect (syntheticPlanet 3) s))
     = size (discoveredPlanets s).
Proof.
  cbv zeta.
  assert (Hin : "P3" ∈ discoveredPlanets
                         (handlePlanetSelect (syntheticPlanet 3) (loadedSession 50))).
  { apply elem_of_union_l, elem_of_singleton. reflexivity. }
  pose proof (discovered_is_monotone_and_select_idempotent
                (handlePlanetSelect (syntheticPlanet 3) (loadedSession 50))
                [Search "zzz"; Close; Select (syntheticPlanet 7); Search "p1"]
                "P3" (syntheticPlanet 3)) as (Hmono & _ & Hidem).
  split; [exact Hin | split; [exact Hin | split; [exact (Hmono Hin) | exact (proj2 (Hidem Hin))]]].
Defined.

Lemma failed_search_keeps_selection_witness :
  let s := handlePlanetSelect (syntheticPlanet 3) (loadedSession 50) in
  selectedPlanet s = Some (syntheticPlanet 3)
  /\ "zzz" <> ""
  /\ find (nameIncludes "zzz") (universePlanets s) = None
  /\ selectedPlanet (handleSearch "zzz" s) = Some (syntheticPlanet 3)
  /\ searchQuery (handleSearch "zzz" s) = "zzz".
Proof.
  cbv zeta.
  assert (Hsel : selectedPlanet (handlePlanetSelect (syntheticPlanet 3) (loadedSession 50))
                 = Some (syntheticPlanet 3)) by reflexivity.
  assert (Hq : "zzz" <> "") by discriminate.
  assert (Hno : forall q,
             q ∈ universePlanets (handlePlanetSelect (syntheticPlanet 3) (loadedSession 50)) ->
             includes (toLowerCase (name q)) (toLowerCase "zzz") = false).
  { apply planetsOf_names_exclude. reflexivity. }
  pose proof (failed_search_keeps_selection _ "zzz" _ Hsel Hq Hno) as (_ & Hkeep & Hquery & _).
  split; [exact Hsel | split; [exact Hq |]].
  split; [exact (find_none_of_all_false (nameIncludes "zzz") _ Hno) |].
  split; [exact Hkeep | exact Hquery].
Defined.

(** ** C9: the texture variant *)

Lemma charCodeSum_acc (s : string) (acc : Z) :
  charCodeSum acc s = (acc + sumZ (charCodes s))%Z.
Proof.
  revert acc. induction s as [| c s IH]; intros acc; cbn.
  - lia.
  - rewrite IH. unfold sumZ. lia.
Qed.

Lemma item_in_range {A} (arr : list A) (i : Z) :
  (0 <= i)%Z -> item arr i = arr !! Z.to_nat i.
Proof.
  intros Hi. unfold item. destruct (Z.ltb_spec i 0); [lia | reflexivity].
Qed.

Lemma bandTextures_length (temp : R) : length (bandTextures temp) = 5%nat.
Proof. unfold bandTextures. js_compare; reflexivity. Qed.

(** C9. The texture is a function of the temperature and of the identifier
    alone: it is the element of the five textures of the band of the
    temperature whose index is the sum of the character codes of the
    identifier modulo 5, which is always one of them; equal arguments give
    the same texture. *)
Theorem texture_variant_is_code_sum_mod_5 (temp : R) (planetId : string) :
  let variant := (sumZ (charCodes planetId) mod 5)%Z in
  (0 <= variant < 5)%Z
  /\ length (bandTextures temp) = 5%nat
  /\ getTextureForTemperature temp planetId = bandTextures temp !! Z.to_nat variant
  /\ (exists texture, getTextureForTemperature temp planetId = Some texture
                      /\ texture ∈ bandTextures temp)
  /\ (forall temp' planetId', temp' = temp -> planetId' = planetId ->
        getTextureForTemperature temp' planetId'
        = getTextureForTemperature temp planetId).
Proof.
  intros variant.
  assert (Hv : (0 <= variant < 5)%Z) by (apply Z.mod_pos_bound; lia).
  assert (Hget : getTextureForTemperature temp planetId
                 = bandTextures temp !! Z.to_nat variant).
  { unfold getTextureForTemperature, bandTextures.
    rewrite charCodeSum_acc, Z.add_0_l. fold variant.
    replace (variant + 1 - 1)%Z with variant by lia.
    js_compare; apply item_in_range; lia. }
  split; [exact Hv | split; [apply bandTextures_length | split; [exact Hget |]]].
  split.
  - destruct (lookup_lt_is_Some_2 (bandTextures temp) (Z.to_nat variant)) as [t Ht].
    { rewrite bandTextures_length. lia. }
    exists t. split; [rewrite Hget; exact Ht |].
    eapply list_elem_of_lookup_2. exact Ht.
  - intros temp' planetId' -> ->. reflexivity.
Qed.

Lemma texture_variant_is_code_sum_mod_5_witness :
  sumZ (charCodes "P3") = 131%Z
  /\ 260 <= 275 < 290
  /\ getTextureForTemperature 275 "P3" = Some planetGreenTemperate2
  /\ getTextureForTemperature (275 + 0) "P3" = getTextureForTemperature 275 "P3".
Proof.
  pose proof (texture_variant_is_code_sum_mod_5 275 "P3") as (_ & _ & Hget & _ & Hdet).
  assert (Hband : bandTextures 275
                  = [planetGreenTemperate1; planetGreenTemperate2; planetGreenTemperate3;
                     planetGreenTemperate4; planetGreenTemperate5]).
  { unfold bandTextures. js_compare. reflexivity. }
  assert (Htemp : 275 + 0 = 275) by lra.
  split; [reflexivity | split; [lra | split]].
  - rewrite Hget, Hband. reflexivity.
  - exact (Hdet (275 + 0) "P3" Htemp eq_refl).
Defined.

(** ** C10: a generation that fails keeps the detail data *)

(** Against C10 as written: a call made with a blank name while an earlier
    generation is still waiting.  From the loaded session: the planet K1 is clicked and
    expanded, which starts a generation and raises the loading flag; the
    user returns to the universe and a search selects the planet whose
    name is one space; it is expanded in turn.  This second call shows its
    notification and returns with the loading flag still raised. *)
Lemma blank_name_returns_with_loading_flag_raised :
  let k1 := universePlanetOf noFixed noString halfDraws 0 (recordNamed "K1") in
  let '(s1, _, pending) :=
    switchToDetailedView (handlePlanetSelect k1 blankNameSession) in
  let s2 := handleSearch " " (backToUniverse s1) in
  pending = Some {| pendingName := "K1"; pendingPlanets := blankNameData |}
  /\ universePlanets blankNameSession !! 0%nat = Some k1
  /\ planetName s2 = " " /\ blank (planetName s2)
  /\ switchToDetailedView s2 = (setViewMode detailed s2, [nameRequired], None)
  /\ generateExoplanet_start s2 = (s2, [nameRequired], None)
  /\ generateExoplanet noFixed noString halfDraws s2 = (s2, [nameRequired])
  /\ isLoading (fst (generateExoplanet noFixed noString halfDraws s2)) = true
  /\ isLoading (fst (generateExoplanet noFixed noString halfDraws s2)) <> false.
Proof.
  cbn. repeat (split; [reflexivity |]). discriminate.
Qed.

Section DetailView.

Variable toFixed : R -> nat -> string.
Variable toString : R -> string.
Variable random : nat -> R.

Abbreviation generate := (generateExoplanet toFixed toString random).
Abbreviation resume := (generateExoplanet_resume toFixed toString random).

Lemma resume_not_found (k : Pending) (s : State) :
  (forall r, r ∈ pendingPlanets k -> matchesName (pendingName k) r = false) ->
  resume k s
  = (setIsLoading false s,
     [ console_error "Error loading exoplanet: Error: Planet not found in NASA database";
       planetNotFound ]).
Proof.
  intros Hno. unfold generateExoplanet_resume.
  rewrite (find_none_of_all_false _ _ Hno). reflexivity.
Qed.

(** C10 (amended). A call of [generateExoplanet] whose name is blank after
    trimming shows the notification Planet Name Required and returns at
    once: it changes no state cell, so the detail data stay as they were
    and the loading flag keeps the value it had (false unless another
    generation is waiting).  A call whose name is not blank and matches no
    cached record, in either direction of the case-insensitive substring
    test, raises the loading flag and waits; when it resumes, whatever
    the state is by then, it leaves the detail data of that state as they
    are, lowers the loading flag, and shows the notification Planet Not
    Found and nothing else to the user. *)
Theorem failed_generation_keeps_detail_data (s : State) :
  (blank (planetName s) ->
     generateExoplanet_start s = (s, [nameRequired], None)
     /\ generate s = (s, [nameRequired])
     /\ exoplanetData (fst (generate s)) = exoplanetData s
     /\ isLoading (fst (generate s)) = isLoading s
     /\ (isLoading s = false -> isLoading (fst (generate s)) = false))
  /\ (~ blank (planetName s) ->
      (forall r, r ∈ availablePlanets s ->
         includes (toLowerCase (kepoi_name r)) (toLowerCase (planetName s)) = false
         /\ includes (toLowerCase (planetName s)) (toLowerCase (kepoi_name r)) = false) ->
      exists k,
        generateExoplanet_start s = (setIsLoading true s, [], Some k)
        /\ (forall s', exoplanetData (fst (resume k s')) = exoplanetData s'
                       /\ isLoading (fst (resume k s')) = false
                       /\ fst (resume k s') = setIsLoading false s'
                       /\ filter isToast (snd (resume k s')) = [planetNotFound])
        /\ exoplanetData (fst (generate s)) = exoplanetData s
        /\ isLoading (fst (generate s)) = false
        /\ fst (generate s) = setIsLoading false s
        /\ filter isToast (snd (generate s)) = [planetNotFound]).
Proof.
  split.
  - unfold blank. intros Hblank.
    assert (Hstart : generateExoplanet_start s = (s, [nameRequired], None)).
    { unfold generateExoplanet_start. rewrite Hblank. reflexivity. }
    assert (Hgen : generate s = (s, [nameRequired])).
    { unfold generateExoplanet. rewrite Hstart. reflexivity. }
    rewrite Hgen. cbn. repeat split; auto.
  - unfold blank. intros Hname Hno.
    set (k := {| pendingName := planetName s; pendingPlanets := availablePlanets s |}).
    assert (Hstart : generateExoplanet_start s = (setIsLoading true s, [], Some k)).
    { unfold generateExoplanet_start.
      destruct (trim (planetName s)); [congruence | reflexivity]. }
    assert (Hres : forall s',
               resume k s'
               = (setIsLoading false s',
                  [ console_error "Error loading exoplanet: Error: Planet not found in NASA database";
                    planetNotFound ])).
    { intros s'. apply resume_not_found. intros r Hr. cbn in Hr |- *.
      destruct (Hno r Hr) as [H1 H2]. unfold matchesName. rewrite H1, H2. reflexivity. }
    assert (Hgen : generate s
                   = (setIsLoading false s,
                      [ console_error "Error loading exoplanet: Error: Planet not found in NASA database";
                        planetNotFound ])).
    { unfold generateExoplanet. rewrite Hstart, Hres. reflexivity. }
    exists k. split; [exact Hstart |]. split.
    + intros s'. rewrite Hres. cbn. repeat split.
    + rewrite Hgen. cbn. repeat split.
Qed.

End DetailView.

Lemma failed_generation_keeps_detail_data_witness :
  let s := setPlanetName "zzz" (loadedSession 5) in
  let b := setPlanetName "   " (loadedSession 5) in
  blank (planetName b)
  /\ ~ blank (planetName s)
  /\ find (matchesName (planetName s)) (availablePlanets s) = None
  /\ generateExoplanet noFixed noString halfDraws b = (b, [nameRequired])
  /\ fst (generateExoplanet noFixed noString halfDraws s) = setIsLoading false s
  /\ filter isToast (snd (generateExoplanet noFixed noString halfDraws s)) = [planetNotFound].
Proof.
  cbv zeta.
  assert (Hb : blank (planetName (setPlanetName "   " (loadedSession 5)))) by reflexivity.
  assert (Hs : ~ blank (planetName (setPlanetName "zzz" (loadedSession 5))))
    by (unfold blank; cbn; discriminate).
  assert (Hno : forall r, r ∈ availablePlanets (setPlanetName "zzz" (loadedSession 5)) ->
             includes (toLowerCase (kepoi_name r))
                      (toLowerCase (planetName (setPlanetName "zzz" (loadedSession 5)))) = false
             /\ includes (toLowerCase (planetName (setPlanetName "zzz" (loadedSession 5))))
                         (toLowerCase (kepoi_name r)) = false).
  { intros r Hr. cbn in Hr.
    repeat (apply elem_of_cons in Hr as [-> | Hr]; [split; reflexivity |]).
    apply elem_of_nil in Hr. destruct Hr. }
  pose proof (failed_generation_keeps_detail_data noFixed noString halfDraws
                (setPlanetName "   " (loadedSession 5))) as [Hblank _].
  pose proof (failed_generation_keeps_detail_data noFixed noString halfDraws
                (setPlanetName "zzz" (loadedSession 5))) as [_ Hfail].
  destruct (Hfail Hs Hno) as (k & _ & _ & _ & _ & Hst & Htoast).
  split; [exact Hb | split; [exact Hs |]].
  split.
  { apply find_none_of_all_false. intros r Hr. unfold matchesName.
    destruct (Hno r Hr) as [H1 H2]. rewrite H1, H2. reflexivity. }
  split; [exact (proj1 (proj2 (Hblank Hb))) | split; [exact Hst | exact Htoast]].
Defined.

(** * Further properties of the page *)

(** ** Selection, discovery and search *)

Lemma find_first_match {A} (f : A -> bool) (l : list A) :
  (exists x, x ∈ l /\ f x = true) ->
  exists i x, l !! i = Some x /\ f x = true
              /\ (forall j y, (j < i)%nat -> l !! j = Some y -> f y = false)
              /\ find f l = Some x.
Proof.
  unfold find. induction l as [| a l IH]; intros (x & Hx & Hfx).
  - apply elem_of_nil in Hx. destruct Hx.
  - destruct (f a) eqn:Hfa.
    + exists 0%nat, a. split; [reflexivity |]. split; [exact Hfa |].
      split; [intros j y Hj; lia | cbn; rewrite Hfa; reflexivity].
    + apply elem_of_cons in Hx as [-> | Hx]; [congruence |].
      destruct IH as (i & z & Hi & Hz & Hbefore & Hfind); [exists x; auto |].
      exists (S i), z. split; [exact Hi |]. split; [exact Hz |]. split.
      * intros [| j] y Hj Hy; cbn in Hy.
        -- injection Hy as <-. exact Hfa.
        -- apply (Hbefore j y); [lia | exact Hy].
      * cbn. rewrite Hfa. exact Hfind.
Qed.

Lemma State_eq (s t : State) :
  planetName s = planetName t -> exoplanetData s = exoplanetData t ->
  isLoading s = isLoading t -> availablePlanets s = availablePlanets t ->
  universePlanets s = universePlanets t -> selectedPlanet s = selectedPlanet t ->
  viewMode s = viewMode t -> searchQuery s = searchQuery t ->
  discoveredPlanets s = discoveredPlanets t -> s = t.
Proof. destruct s, t; cbn; intros; subst; reflexivity. Qed.

(** X1. A click on a planet selects it, copies its name and puts its
    identifier in the discovered set; the set grows by exactly one when the
    identifier was not in it, and a second click on the same planet changes
    nothing at all. *)
Theorem select_grows_discovered_by_one (planet : UniversePlanetData) (s : State) :
  let s' := handlePlanetSelect planet s in
  selectedPlanet s' = Some planet
  /\ planetName s' = name planet
  /\ id planet ∈ discoveredPlanets s'
  /\ (id planet ∉ discoveredPlanets s ->
      size (discoveredPlanets s') = S (size (discoveredPlanets s)))
  /\ handlePlanetSelect planet s' = s'.
Proof.
  cbn. split; [reflexivity |]. split; [reflexivity |].
  split; [apply elem_of_union_l, elem_of_singleton; reflexivity |].
  split.
  - intros Hnew. rewrite size_union by (apply disjoint_singleton_l; exact Hnew).
    rewrite size_singleton. reflexivity.
  - apply State_eq; try reflexivity. cbn.
    apply set_eq. intros ident. rewrite !elem_of_union. tauto.
Qed.

Lemma select_grows_discovered_by_one_witness :
  let s := loadedSession 5 in
  (id (syntheticPlanet 3) ∉ discoveredPlanets s)
  /\ size (discoveredPlanets (handlePlanetSelect (syntheticPlanet 3) s)) = 1%nat.
Proof.
  cbv zeta.
  assert (Hnew : id (syntheticPlanet 3) ∉ discoveredPlanets (loadedSession 5))
    by apply not_elem_of_empty.
  pose proof (select_grows_discovered_by_one (syntheticPlanet 3) (loadedSession 5))
    as (_ & _ & _ & Hsize & _).
  split; [exact Hnew | exact (Hsize Hnew)].
Defined.

Lemma discovered_after_run (events : list Event) (s : State) :
  discoveredPlanets (run s events)
  = discoveredPlanets s ∪ list_to_set (selectedIds events).
Proof.
  revert s. induction events as [| e events IH]; intros s.
  - cbn. apply set_eq. intros ident.
    rewrite elem_of_union, elem_of_empty. tauto.
  - change (run s (e :: events)) with (run (step s e) events). rewrite IH.
    destruct e as [planet | query |].
    + cbn. apply set_eq. intros ident.
      rewrite !elem_of_union. tauto.
    + cbn [selectedIds step]. f_equal. unfold handleSearch.
      destruct (truthy query); [| reflexivity].
      destruct (find (nameIncludes query) (universePlanets s)); reflexivity.
    + reflexivity.
Qed.

(** X2. After any sequence of clicks, searches and closings the discovered
    set is the one before together with the identifiers of the planets
    clicked: a search that selects a planet does not mark it discovered. *)
Theorem discovered_is_exactly_the_clicked (events : list Event) (s : State) :
  discoveredPlanets (run s events)
  = discoveredPlanets s ∪ list_to_set (selectedIds events).
Proof. apply discovered_after_run. Qed.

Lemma step_keeps_universe (s : State) (e : Event) :
  universePlanets (step s e) = universePlanets s.
Proof.
  destruct e as [planet | query |]; cbn; try reflexivity.
  unfold handleSearch. destruct (truthy query); [| reflexivity].
  destruct (find (nameIncludes query) (universePlanets s)); reflexivity.
Qed.

Lemma run_keeps_universe (events : list Event) (s : State) :
  universePlanets (run s events) = universePlanets s.
Proof.
  revert s. induction events as [| e events IH]; intros s; [reflexivity |].
  change (run s (e :: events)) with (run (step s e) events).
  rewrite IH. apply step_keeps_universe.
Qed.

Lemma size_list_to_set_le (l : list string) :
  (size (list_to_set l : gset string) <= length l)%nat.
Proof.
  induction l as [| a l IH]; cbn.
  - rewrite size_empty. lia.
  - destruct (decide (a ∈ (list_to_set l : gset string))) as [Hin | Hout].
    + replace ({[a]} ∪ list_to_set l : gset string) with (list_to_set l : gset string)
        by (apply set_eq; intros ident; rewrite elem_of_union, elem_of_singleton;
            split; [auto | intros [-> | H]; auto]).
      lia.
    + rewrite size_union by (apply disjoint_singleton_l; exact Hout).
      rewrite size_singleton. lia.
Qed.

Lemma selectedIds_clicked (events : list Event) :
  selectedIds events = id <$> clickedPlanets events.
Proof.
  induction events as [| [planet | query |] events IH]; cbn; congruence.
Qed.

(** X3. The counter of the header never passes its total: when the
    discovered identifiers are identifiers of planets of the universe and
    every click is on a planet of the universe, then after any sequence of
    events the universe is the same and the discovered set has at most as
    many elements as the universe has planets. *)
Theorem discovered_count_stays_within_total (events : list Event) (s : State) :
  discoveredPlanets s ⊆ list_to_set (id <$> universePlanets s) ->
  (forall p, p ∈ clickedPlanets events -> p ∈ universePlanets s) ->
  universePlanets (run s events) = universePlanets s
  /\ (size (discoveredPlanets (run s events))
      <= length (universePlanets (run s events)))%nat.
Proof.
  intros Hinit Hclicks. rewrite run_keeps_universe. split; [reflexivity |].
  rewrite discovered_after_run.
  assert (Hsub : discoveredPlanets s ∪ list_to_set (selectedIds events)
                 ⊆ (list_to_set (id <$> universePlanets s) : gset string)).
  { apply union_least; [exact Hinit |].
    intros ident Hident. apply elem_of_list_to_set in Hident.
    rewrite selectedIds_clicked in Hident.
    apply list_elem_of_fmap in Hident as (p & -> & Hp).
    apply elem_of_list_to_set, list_elem_of_fmap. exists p. split; [reflexivity |].
    apply Hclicks, Hp. }
  etransitivity; [apply subseteq_size, Hsub |].
  etransitivity; [apply size_list_to_set_le |].
  rewrite length_fmap. reflexivity.
Qed.

Lemma discovered_count_stays_within_total_witness :
  let s := loadedSession 5 in
  let events := [Select (syntheticPlanet 3); Search "p1"; Select (syntheticPlanet 3);
                 Close; Select (syntheticPlanet 0)] in
  discoveredPlanets s ⊆ list_to_set (id <$> universePlanets s)
  /\ (size (discoveredPlanets (run s events)) <= 5)%nat.
Proof.
  cbv zeta.
  assert (Hinit : discoveredPlanets (loadedSession 5)
                  ⊆ list_to_set (id <$> universePlanets (loadedSession 5)))
    by apply empty_subseteq.
  assert (Hclicks : forall p,
             p ∈ clickedPlanets [Select (syntheticPlanet 3); Search "p1";
                                 Select (syntheticPlanet 3); Close;
                                 Select (syntheticPlanet 0)] ->
             p ∈ universePlanets (loadedSession 5)).
  { intros p Hp. cbn in Hp.
    repeat (apply elem_of_cons in Hp as [-> | Hp];
            [first [ apply (list_elem_of_lookup_2 _ 3%nat); reflexivity
                   | apply (list_elem_of_lookup_2 _ 0%nat); reflexivity ] |]).
    apply elem_of_nil in Hp. destruct Hp. }
  pose proof (discovered_count_stays_within_total _ _ Hinit Hclicks) as [Huni Hle].
  rewrite Huni in Hle. split; [exact Hinit | exact Hle].
Defined.

(** X4. A search with a string that is not empty and that some planet's
    name includes, case ignored, selects the first such planet of the
    universe in its order and copies its name; it stores the string and
    changes nothing else: the planet is not marked discovered. *)
Theorem search_selects_first_match (query : string) (s : State) :
  query <> "" ->
  (exists q, q ∈ universePlanets s
             /\ includes (toLowerCase (name q)) (toLowerCase query) = true) ->
  exists i p,
    universePlanets s !! i = Some p
    /\ includes (toLowerCase (name p)) (toLowerCase query) = true
    /\ (forall j q, (j < i)%nat -> universePlanets s !! j = Some q ->
          includes (toLowerCase (name q)) (toLowerCase query) = false)
    /\ handleSearch query s
       = setPlanetName (name p) (setSelectedPlanet (Some p) (setSearchQuery query s))
    /\ selectedPlanet (handleSearch query s) = Some p
    /\ planetName (handleSearch query s) = name p
    /\ discoveredPlanets (handleSearch query s) = discoveredPlanets s.
Proof.
  intros Hq Hsome.
  destruct (find_first_match (nameIncludes query) (universePlanets s) Hsome)
    as (i & p & Hi & Hp & Hbefore & Hfind).
  exists i, p. split; [exact Hi |]. split; [exact Hp |]. split; [exact Hbefore |].
  assert (Heq : handleSearch query s
                = setPlanetName (name p)
                    (setSelectedPlanet (Some p) (setSearchQuery query s))).
  { unfold handleSearch. rewrite (truthy_nonempty _ Hq), Hfind. reflexivity. }
  rewrite Heq. repeat split.
Qed.

Lemma search_selects_first_match_witness :
  let s := loadedSession 12 in
  "p1" <> ""
  /\ syntheticPlanet 10 ∈ universePlanets s
  /\ includes (toLowerCase (name (syntheticPlanet 10))) (toLowerCase "p1") = true
  /\ exists i p, universePlanets s !! i = Some p
                 /\ selectedPlanet (handleSearch "p1" s) = Some p
                 /\ discoveredPlanets (handleSearch "p1" s) = ∅.
Proof.
  cbv zeta.
  assert (Hq : "p1" <> "") by discriminate.
  assert (Hin : syntheticPlanet 10 ∈ universePlanets (loadedSession 12))
    by (apply (list_elem_of_lookup_2 _ 10%nat); reflexivity).
  assert (Hinc : includes (toLowerCase (name (syntheticPlanet 10))) (toLowerCase "p1") = true)
    by reflexivity.
  destruct (search_selects_first_match "p1" (loadedSession 12) Hq
              (ex_intro _ (syntheticPlanet 10) (conj Hin Hinc)))
    as (i & p & Hi & _ & _ & _ & Hsel & _ & Hdisc).
  split; [exact Hq | split; [exact Hin | split; [exact Hinc |]]].
  exists i, p. split; [exact Hi | split; [exact Hsel | exact Hdisc]].
Defined.

(** X5. The search ignores the case of the string: two strings that are
    not empty and have the same lower-case form select the same planet and
    copy the same name, from any state. *)
Theorem search_ignores_case (query1 query2 : string) (s : State) :
  query1 <> "" -> query2 <> "" ->
  toLowerCase query1 = toLowerCase query2 ->
  selectedPlanet (handleSearch query1 s) = selectedPlanet (handleSearch query2 s)
  /\ planetName (handleSearch query1 s) = planetName (handleSearch query2 s)
  /\ setSearchQuery "" (handleSearch query1 s) = setSearchQuery "" (handleSearch query2 s).
Proof.
  intros H1 H2 Hlow.
  assert (Hsame : setSearchQuery "" (handleSearch query1 s)
                  = setSearchQuery "" (handleSearch query2 s)).
  { unfold handleSearch, nameIncludes.
    rewrite (truthy_nonempty _ H1), (truthy_nonempty _ H2), Hlow.
    destruct (find _ (universePlanets s)); reflexivity. }
  split; [exact (f_equal selectedPlanet Hsame) |].
  split; [exact (f_equal planetName Hsame) | exact Hsame].
Qed.

Lemma search_ignores_case_witness :
  "P3" <> "" /\ "p3" <> "" /\ toLowerCase "P3" = toLowerCase "p3"
  /\ selectedPlanet (handleSearch "P3" (loadedSession 5))
     = selectedPlanet (handleSearch "p3" (loadedSession 5)).
Proof.
  assert (H1 : "P3" <> "") by discriminate.
  assert (H2 : "p3" <> "") by discriminate.
  assert (Hl : toLowerCase "P3" = toLowerCase "p3") by reflexivity.
  split; [exact H1 | split; [exact H2 | split; [exact Hl |]]].
  exact (proj1 (search_ignores_case "P3" "p3" (loadedSession 5) H1 H2 Hl)).
Defined.

(** X6. The viewer and the page look the searched planet up in the same
    way: after a search the page has selected the planet that the viewer
    highlights for the stored string, or kept its selection when the viewer
    highlights none; and among planets with distinct identifiers the
    highlight test holds for that planet only. *)
Theorem search_selects_the_highlighted_planet (query : string) (s : State) :
  let s' := handleSearch query s in
  let highlighted := highlightedPlanet (universePlanets s') (Some (searchQuery s')) in
  selectedPlanet s'
  = match highlighted with
    | Some p => Some p
    | None => selectedPlanet s
    end
  /\ (NoDup (id <$> universePlanets s) ->
      forall h p, highlighted = Some h -> p ∈ universePlanets s ->
        (isHighlighted p highlighted = true <-> p = h)).
Proof.
  cbv zeta.
  assert (Huni : universePlanets (handleSearch query s) = universePlanets s)
    by apply (step_keeps_universe s (Search query)).
  assert (Hquery : searchQuery (handleSearch query s) = query).
  { unfold handleSearch. destruct (truthy query); [| reflexivity].
    destruct (find (nameIncludes query) (universePlanets s)); reflexivity. }
  rewrite Huni, Hquery. unfold highlightedPlanet. split.
  - unfold handleSearch, nameIncludes. destruct (truthy query); [| reflexivity].
    destruct (find _ (universePlanets s)); reflexivity.
  - intros Hnd h p Hh Hp.
    destruct (truthy query); [| discriminate].
    rewrite Hh. cbn. rewrite String.eqb_eq. split; [| intros ->; reflexivity].
    intros Hid.
    assert (Hhin : h ∈ universePlanets s).
    { apply list_elem_of_In. eapply find_some. exact Hh. }
    apply list_elem_of_lookup in Hp as [i Hi].
    apply list_elem_of_lookup in Hhin as [j Hj].
    assert (Hij : i = j).
    { apply (NoDup_lookup (id <$> universePlanets s) i j (id p) Hnd).
      - rewrite list_lookup_fmap, Hi. reflexivity.
      - rewrite list_lookup_fmap, Hj, Hid. reflexivity. }
    subst j. congruence.
Qed.

Lemma search_selects_the_highlighted_planet_witness :
  let s := loadedSession 5 in
  NoDup (id <$> universePlanets s)
  /\ highlightedPlanet (universePlanets s) (Some "p3") = Some (syntheticPlanet 3)
  /\ selectedPlanet (handleSearch "p3" s) = Some (syntheticPlanet 3)
  /\ isHighlighted (syntheticPlanet 3)
       (highlightedPlanet (universePlanets (handleSearch "p3" s))
          (Some (searchQuery (handleSearch "p3" s)))) = true.
Proof.
  cbv zeta.
  assert (Hnd : NoDup (id <$> universePlanets (loadedSession 5))).
  { apply (bool_decide_unpack _). reflexivity. }
  assert (Hh : highlightedPlanet (universePlanets (handleSearch "p3" (loadedSession 5)))
                 (Some (searchQuery (handleSearch "p3" (loadedSession 5))))
               = Some (syntheticPlanet 3)) by reflexivity.
  assert (Hin : syntheticPlanet 3 ∈ universePlanets (loadedSession 5))
    by (apply (list_elem_of_lookup_2 _ 3%nat); reflexivity).
  pose proof (search_selects_the_highlighted_planet "p3" (loadedSession 5)) as [Hsel Hone].
  split; [exact Hnd | split; [reflexivity | split]].
  - rewrite Hsel, Hh. reflexivity.
  - apply (Hone Hnd _ _ Hh Hin). reflexivity.
Defined.

(** ** More on the string built-ins *)

Lemma append_empty_r (s : string) : s +:+ "" = s.
Proof.
  induction s as [| c s IH]; [reflexivity |].
  change (String c s +:+ "") with (String c (s +:+ "")). rewrite IH. reflexivity.
Qed.


Lemma includes_self (s : string) : includes s s = true.
Proof.
  apply includes_iff_substring. exists "", "". cbn. symmetry. apply append_empty_r.
Qed.


(** ** The random pick and the detail view *)

Lemma floor_index_in_range (draw : R) (n : nat) :
  0 <= draw < 1 -> (0 < n)%nat ->
  (0 <= Math_floor (draw * INR n) < Z.of_nat n)%Z.
Proof.
  intros [H0 H1] Hn. unfold Math_floor.
  pose proof (base_Int_part (draw * INR n)) as [Hle Hgt].
  pose proof (lt_0_INR n Hn) as Hpos.
  assert (Hx0 : 0 <= draw * INR n) by nra.
  assert (Hx1 : draw * INR n < INR n) by nra.
  split.
  - assert (Hz : (-1 < Int_part (draw * INR n))%Z) by (apply lt_IZR; lra).
    lia.
  - apply lt_IZR. rewrite <- INR_IZR_INZ. lra.
Qed.

(** X7. With a draw that is at least 0 and less than 1, the random pick
    never reads outside the universe: when the universe has planets it
    stores the name of one of them as the search string and as the planet
    name, and when it has none it does nothing.  It changes neither the
    selection nor the discovered set, and the viewer then highlights a
    planet when the picked name is not empty. *)
Theorem random_pick_is_a_planet (draw : R) (s : State) :
  0 <= draw < 1 ->
  (universePlanets s = [] -> generateRandomPlanet draw s = Some s)
  /\ (universePlanets s <> [] ->
      exists p, p ∈ universePlanets s
        /\ generateRandomPlanet draw s
           = Some (setPlanetName (name p) (setSearchQuery (name p) s))
        /\ (name p <> "" ->
            is_Some (highlightedPlanet (universePlanets s) (Some (name p)))))
  /\ (forall s', generateRandomPlanet draw s = Some s' ->
        selectedPlanet s' = selectedPlanet s
        /\ discoveredPlanets s' = discoveredPlanets s
        /\ universePlanets s' = universePlanets s).
Proof.
  intros Hdraw. unfold generateRandomPlanet.
  destruct (universePlanets s) as [| p0 rest] eqn:Huni.
  - cbn. split; [reflexivity |]. split; [congruence |].
    intros s' [= <-]. rewrite Huni. repeat split.
  - rewrite <- Huni.
    assert (Hlen : (0 < length (universePlanets s))%nat) by (rewrite Huni; cbn; lia).
    destruct (floor_index_in_range draw _ Hdraw Hlen) as [Hlo Hhi].
    destruct (Nat.ltb_spec 0 (length (universePlanets s))) as [_ | ?]; [| lia].
    destruct (Z.ltb_spec (Math_floor (draw * INR (length (universePlanets s)))) 0)
      as [? | _]; [lia |].
    destruct (lookup_lt_is_Some_2 (universePlanets s)
                (Z.to_nat (Math_floor (draw * INR (length (universePlanets s))))))
      as [p Hp]; [lia |].
    rewrite Hp. split; [rewrite Huni; discriminate |]. split.
    + intros _. exists p. split; [eapply list_elem_of_lookup_2; exact Hp |].
      split; [reflexivity |].
      intros Hname. unfold highlightedPlanet. rewrite (truthy_nonempty _ Hname).
      destruct (find_first_match
                  (fun q => includes (toLowerCase (name q)) (toLowerCase (name p)))
                  (universePlanets s)) as (i & q & _ & _ & _ & Hfind).
      { exists p. split; [eapply list_elem_of_lookup_2; exact Hp |].
        apply includes_self. }
      rewrite Hfind. eexists. reflexivity.
    + intros s' [= <-]. repeat split.
Qed.

Lemma random_pick_is_a_planet_witness :
  let s := loadedSession 5 in
  0 <= 0.7 < 1
  /\ universePlanets s <> []
  /\ exists p, p ∈ universePlanets s
       /\ generateRandomPlanet 0.7 s
          = Some (setPlanetName (name p) (setSearchQuery (name p) s)).
Proof.
  cbv zeta.
  assert (Hd : 0 <= 0.7 < 1) by lra.
  assert (Hne : universePlanets (loadedSession 5) <> []) by discriminate.
  destruct (random_pick_is_a_planet 0.7 (loadedSession 5) Hd) as (_ & Hpick & _).
  destruct (Hpick Hne) as (p & Hp & Hgen & _).
  split; [exact Hd | split; [exact Hne |]].
  exists p. split; [exact Hp | exact Hgen].
Defined.

Section DetailViewSuccess.

Variable toFixed : R -> nat -> string.
Variable toString : R -> string.
Variable random : nat -> R.

Abbreviation generate' := (generateExoplanet toFixed toString random).
Abbreviation resume' := (generateExoplanet_resume toFixed toString random).
Abbreviation planetDataOf' := (planetDataOf toFixed toString random).

(** X8. Expanding does nothing without a selection.  With a selection it
    always switches to the detailed view, at once: when the planet name is
    blank the generation is refused with its notification and the detail
    data and the loading flag stay as they were, so the detailed view shows
    the earlier data or none; otherwise the loading flag is raised and the
    generation is left waiting with the name and the records of the call. *)
Theorem expand_switches_view_even_when_refused (s : State) :
  (selectedPlanet s = None -> switchToDetailedView s = (s, [], None))
  /\ (selectedPlanet s <> None ->
      viewMode (fst (fst (switchToDetailedView s))) = detailed
      /\ exoplanetData (fst (fst (switchToDetailedView s))) = exoplanetData s
      /\ (blank (planetName s) ->
          switchToDetailedView s = (setViewMode detailed s, [nameRequired], None))
      /\ (~ blank (planetName s) ->
          switchToDetailedView s
          = (setViewMode detailed (setIsLoading true s), [],
             Some {| pendingName := planetName s;
                     pendingPlanets := availablePlanets s |}))).
Proof.
  unfold switchToDetailedView, generateExoplanet_start, blank. split.
  - intros ->. reflexivity.
  - intros Hsel. destruct (selectedPlanet s) as [p |]; [| congruence].
    destruct (trim (planetName s)) eqn:Htrim; cbn.
    + repeat split. intros Hne. congruence.
    + repeat split. intros Hb. discriminate.
Qed.

Lemma expand_switches_view_even_when_refused_witness :
  let s := handlePlanetSelect (universePlanetOf noFixed noString halfDraws 1 (recordNamed " "))
             blankNameSession in
  selectedPlanet s <> None
  /\ blank (planetName s)
  /\ switchToDetailedView s = (setViewMode detailed s, [nameRequired], None)
  /\ exoplanetData (fst (fst (switchToDetailedView s))) = None.
Proof.
  cbv zeta.
  set (s := handlePlanetSelect
              (universePlanetOf noFixed noString halfDraws 1 (recordNamed " "))
              blankNameSession).
  assert (Hsel : selectedPlanet s <> None) by discriminate.
  assert (Hb : blank (planetName s)) by reflexivity.
  destruct (expand_switches_view_even_when_refused s) as [_ Hexp].
  destruct (Hexp Hsel) as (_ & Hdata & Hblank & _).
  split; [exact Hsel | split; [exact Hb | split; [exact (Hblank Hb) | exact Hdata]]].
Defined.

Lemma generation_first_match (s : State) :
  ~ blank (planetName s) ->
  (exists r, r ∈ availablePlanets s /\ matchesName (planetName s) r = true) ->
  exists i r,
    availablePlanets s !! i = Some r
    /\ matchesName (planetName s) r = true
    /\ (forall j r', (j < i)%nat -> availablePlanets s !! j = Some r' ->
          matchesName (planetName s) r' = false)
    /\ generate' s
       = (setIsLoading false (setExoplanetData (Some (planetDataOf' r)) s),
          [exoplanetFound r])
    /\ (forall s',
          resume' {| pendingName := planetName s;
                     pendingPlanets := availablePlanets s |} s'
          = (setIsLoading false (setExoplanetData (Some (planetDataOf' r)) s'),
             [exoplanetFound r]))
    /\ exo_name (planetDataOf' r) = kepoi_name r
    /\ exo_temperature (planetDataOf' r) = koi_teq r
    /\ exo_color (planetDataOf' r) = getPlanetColor (koi_teq r).
Proof.
  intros Hname Hsome.
  destruct (find_first_match (matchesName (planetName s)) (availablePlanets s) Hsome)
    as (i & r & Hi & Hr & Hbefore & Hfind).
  exists i, r. split; [exact Hi |]. split; [exact Hr |]. split; [exact Hbefore |].
  assert (Hres : forall s',
             resume' {| pendingName := planetName s;
                        pendingPlanets := availablePlanets s |} s'
             = (setIsLoading false (setExoplanetData (Some (planetDataOf' r)) s'),
                [exoplanetFound r])).
  { intros s'. unfold generateExoplanet_resume. cbn [pendingName pendingPlanets].
    rewrite Hfind. reflexivity. }
  split; [| split; [exact Hres | repeat split]].
  unfold generateExoplanet, generateExoplanet_start.
  unfold blank in Hname.
  destruct (trim (planetName s)); [congruence |]. cbn [negb truthy].
  rewrite Hres. reflexivity.
Qed.

(** X9. A generation whose name is not blank and matches some cached
    record shows the first record, in the order of the cache, that matches
    it in either direction: it stores the detail data built from that
    record, lowers the loading flag and shows the notification Exoplanet
    Found with the identifier of the record; when it resumes later, it
    overwrites whatever detail data the state holds by then. *)
Theorem generation_shows_first_matching_record (s : State) :
  ~ blank (planetName s) ->
  (exists r, r ∈ availablePlanets s /\ matchesName (planetName s) r = true) ->
  exists i r,
    availablePlanets s !! i = Some r
    /\ matchesName (planetName s) r = true
    /\ (forall j r', (j < i)%nat -> availablePlanets s !! j = Some r' ->
          matchesName (planetName s) r' = false)
    /\ generate' s
       = (setIsLoading false (setExoplanetData (Some (planetDataOf' r)) s),
          [exoplanetFound r])
    /\ (forall s',
          resume' {| pendingName := planetName s;
                     pendingPlanets := availablePlanets s |} s'
          = (setIsLoading false (setExoplanetData (Some (planetDataOf' r)) s'),
             [exoplanetFound r]))
    /\ exo_name (planetDataOf' r) = kepoi_name r
    /\ exo_temperature (planetDataOf' r) = koi_teq r
    /\ exo_color (planetDataOf' r) = getPlanetColor (koi_teq r).
Proof. apply generation_first_match. Qed.


End DetailViewSuccess.

(** Without the same length for all identifiers the record shown can be
    another one: after a click on P10 the detail view shows P1, whose
    identifier is part of the name. *)
Example expand_P10_shows_P1 :
  exo_name <$> exoplanetData
                 (fst (generateExoplanet noFixed noString halfDraws
                         (handlePlanetSelect (syntheticPlanet 10) (loadedSession 12))))
  = Some "P1".
Proof. reflexivity. Qed.

Lemma generation_shows_first_matching_record_witness :
  let s := handlePlanetSelect (syntheticPlanet 3) (loadedSession 5) in
  ~ blank (planetName s)
  /\ syntheticRecord 3 ∈ availablePlanets s
  /\ matchesName (planetName s) (syntheticRecord 3) = true
  /\ exists r, fst (generateExoplanet noFixed noString halfDraws s)
               = setIsLoading false
                   (setExoplanetData (Some (planetDataOf noFixed noString halfDraws r)) s).
Proof.
  cbv zeta.
  set (s := handlePlanetSelect (syntheticPlanet 3) (loadedSession 5)).
  assert (Hname : ~ blank (planetName s)) by (unfold blank; cbn; discriminate).
  assert (Hin : syntheticRecord 3 ∈ availablePlanets s)
    by (apply (list_elem_of_lookup_2 _ 3%nat); reflexivity).
  assert (Hm : matchesName (planetName s) (syntheticRecord 3) = true) by reflexivity.
  destruct (generation_shows_first_matching_record noFixed noString halfDraws s Hname
              (ex_intro _ (syntheticRecord 3) (conj Hin Hm)))
    as (i & r & _ & _ & _ & Hgen & _).
  split; [exact Hname | split; [exact Hin | split; [exact Hm |]]].
  exists r. rewrite Hgen. reflexivity.
Defined.


(** ** Loading the records *)

(** X11. Once a load has stored records in the cache, every later load
    takes them from the cache: whatever the network would answer, it sets
    the available planets to the cached records, shows nothing and leaves
    the cache as it is.  A load that fails with an empty cache shows the
    notification Data Loading Error and leaves the state and the cache
    untouched, so that the next load asks again. *)
Theorem cache_is_filled_once (data : list NASAExoplanetData) (s : State) :
  let '(cache1, s1, shown1) := loadNASAData (fetch_json data) None s in
  cache1 = Some data
  /\ availablePlanets s1 = data
  /\ shown1 = []
  /\ (forall outcome s',
        loadNASAData outcome cache1 s' = (Some data, setAvailablePlanets data s', []))
  /\ (forall outcome,
        (forall d, outcome <> fetch_json d) ->
        loadNASAData outcome None s
        = (None, s, [console_error "Error loading NASA data:"; dataLoadingError])).
Proof.
  cbn. repeat split.
  intros outcome Hfail.
  destruct outcome as [| | | d]; try reflexivity.
  exfalso. apply (Hfail d). reflexivity.
Qed.

Lemma cache_is_filled_once_witness :
  (forall d, fetch_not_ok <> fetch_json d)
  /\ loadNASAData fetch_not_ok None initialState
     = (None, initialState, [console_error "Error loading NASA data:"; dataLoadingError])
  /\ loadNASAData fetch_rejected (Some (syntheticRecords 2)) initialState
     = (Some (syntheticRecords 2),
        setAvailablePlanets (syntheticRecords 2) initialState, []).
Proof.
  assert (Hne : forall d, fetch_not_ok <> fetch_json d) by discriminate.
  pose proof (cache_is_filled_once (syntheticRecords 2) initialState) as H.
  cbn in H. destruct H as (_ & _ & _ & Hhit & Hfail).
  split; [exact Hne | split; [exact (Hfail fetch_not_ok Hne) |]].
  exact (Hhit fetch_rejected initialState).
Defined.

(** ** The figures of the detail view *)

Lemma Math_round_between (a b : Z) (x : R) :
  IZR a <= x <= IZR b -> IZR a <= Math_round x <= IZR b.
Proof.
  intros [Ha Hb]. unfold Math_round.
  pose proof (base_Int_part (x + / 2)) as [Hle Hgt].
  split; apply IZR_le.
  - assert (H : (a - 1 < Int_part (x + / 2))%Z)
      by (apply lt_IZR; rewrite minus_IZR; lra).
    lia.
  - assert (H : (Int_part (x + / 2) < b + 1)%Z)
      by (apply lt_IZR; rewrite plus_IZR; lra).
    lia.
Qed.

Lemma score_between (x : R) : 0 <= Math_max 0 (Math_min 100 x) <= 100.
Proof.
  unfold Math_max, Math_min, Rmax, Rmin.
  repeat (destruct (Rle_dec _ _)); lra.
Qed.

Lemma gt_spec (a b : R) : reflect (a > b) (gt a b).
Proof. unfold gt. destruct (Rgt_dec a b); constructor; assumption. Qed.

(** X12. With a draw that is at least 0 and less than 1, the four
    habitability metrics are whole numbers from 0 to 100, in the order Water
    Presence, Atmosphere, Temperature, Stellar Radiation; the water metric
    lies from 60 to 90 when the temperature score passes 60 and from 20 to
    60 otherwise; and the temperature metric is 0 as soon as the
    temperature is 50 K or more away from 250 K. *)
Theorem habitability_metrics_are_percentages (draw : R) (planet : NASAExoplanetData) :
  0 <= draw < 1 ->
  let metrics := generateHabitabilityMetrics draw planet in
  map metric metrics
  = ["Water Presence"; "Atmosphere"; "Temperature"; "Stellar Radiation"]
  /\ Forall (fun m => 0 <= metric_value m <= 100
                      /\ exists z : Z, metric_value m = IZR z) metrics
  /\ (forall water, metrics !! 0%nat = Some water ->
        (tempScoreOf planet > 60 -> 60 <= metric_value water <= 90)
        /\ (tempScoreOf planet <= 60 -> 20 <= metric_value water <= 60))
  /\ (forall temp, metrics !! 2%nat = Some temp ->
        Rabs (koi_teq planet - 250) >= 50 -> metric_value temp = 0).
Proof.
  intros Hdraw. cbv zeta. unfold generateHabitabilityMetrics.
  fold (tempScoreOf planet) (radiusScoreOf planet) (stellarScoreOf planet).
  pose proof (score_between (100 - Math_abs (koi_teq planet - 250) * 2)) as Ht.
  pose proof (score_between (100 - Math_abs (koi_prad planet - 1) * 30)) as Hr.
  pose proof (score_between (100 - Math_abs (koi_steff planet - 5778) / 100)) as Hs.
  fold (tempScoreOf planet) in Ht. fold (radiusScoreOf planet) in Hr.
  fold (stellarScoreOf planet) in Hs.
  assert (Hwater : 0 <= (if gt (tempScoreOf planet) 60
                         then draw * 30 + 60 else draw * 40 + 20) <= 100)
    by (destruct (gt (tempScoreOf planet) 60); lra).
  split; [reflexivity |]. split; [| split].
  - repeat (constructor;
            [cbn [metric_value]; split;
             [apply (Math_round_between 0 100); lra | eexists; reflexivity] |]).
    constructor.
  - intros water [= <-]. cbn [metric_value]. split; intros Hcase.
    + destruct (gt_spec (tempScoreOf planet) 60); [| lra].
      apply (Math_round_between 60 90). lra.
    + destruct (gt_spec (tempScoreOf planet) 60); [lra |].
      apply (Math_round_between 20 60). lra.
  - intros temp [= <-] Hfar. cbn [metric_value].
    assert (Hzero : tempScoreOf planet = 0).
    { unfold tempScoreOf, Math_max, Math_min, Math_abs, Rmax, Rmin.
      repeat (destruct (Rle_dec _ _)); lra. }
    rewrite Hzero.
    pose proof (Math_round_between 0 0 0) as H0. lra.
Qed.

Lemma habitability_metrics_are_percentages_witness :
  0 <= 0.5 < 1
  /\ map metric (generateHabitabilityMetrics 0.5 (recordNamed "K1"))
     = ["Water Presence"; "Atmosphere"; "Temperature"; "Stellar Radiation"]
  /\ Forall (fun m => 0 <= metric_value m <= 100 /\ exists z : Z, metric_value m = IZR z)
            (generateHabitabilityMetrics 0.5 (recordNamed "K1")).
Proof.
  assert (Hd : 0 <= 0.5 < 1) by lra.
  pose proof (habitability_metrics_are_percentages 0.5 (recordNamed "K1") Hd)
    as (Hlabels & Hall & _).
  split; [exact Hd | split; [exact Hlabels | exact Hall]].
Defined.

(** X13. The similarity index shown in the detail view lies from 0 to 1,
    and it is 1 for a planet of one Earth radius at 255 K.  It is the
    figure of the row ESI of the detail data. *)
Theorem esi_is_a_fraction (toFixed : R -> nat -> string) (toString : R -> string)
    (random : nat -> R) (nasaPlanet : NASAExoplanetData) :
  0 <= esiOf nasaPlanet <= 1
  /\ (koi_prad nasaPlanet = 1 -> koi_teq nasaPlanet = 255 -> esiOf nasaPlanet = 1)
  /\ exo_stats (planetDataOf toFixed toString random nasaPlanet) !! 5%nat
     = Some {| label := "ESI"; value := toFixed (esiOf nasaPlanet) 2%nat; unit := Some "" |}.
Proof.
  split; [| split; [| reflexivity]].
  - unfold esiOf, Math_max, Math_min, Rmax, Rmin.
    repeat (destruct (Rle_dec _ _)); lra.
  - intros Hrad Hteq.
    unfold esiOf, Math_max, Math_min, Math_abs, Rmax, Rmin, Rabs.
    rewrite Hrad, Hteq.
    repeat (destruct (Rle_dec _ _)); repeat (destruct (Rcase_abs _)); lra.
Qed.

Lemma esi_is_a_fraction_witness :
  koi_prad earthTwin = 1 /\ koi_teq earthTwin = 255
  /\ esiOf earthTwin = 1
  /\ 0 <= esiOf (recordNamed "K1") <= 1.
Proof.
  assert (Hrad : koi_prad earthTwin = 1) by reflexivity.
  assert (Hteq : koi_teq earthTwin = 255) by reflexivity.
  pose proof (esi_is_a_fraction noFixed noString halfDraws earthTwin) as (_ & Hone & _).
  pose proof (esi_is_a_fraction noFixed noString halfDraws (recordNamed "K1"))
    as (Hrange & _).
  split; [exact Hrad | split; [exact Hteq | split; [exact (Hone Hrad Hteq) | exact Hrange]]].
Defined.

(** X14. With draws that are at least 0 and less than 1, the temperature
    history has four points, Present, 1M, 10M and 100M years: the first is
    the equilibrium temperature and each of the others is at most that
    temperature and at most 10, 20 and 30 K below it. *)
Theorem temperature_history_stays_below_present (toFixed : R -> nat -> string)
    (toString : R -> string) (random : nat -> R) (nasaPlanet : NASAExoplanetData) :
  validDraws random ->
  let history := temperatureHistory (planetDataOf toFixed toString random nasaPlanet) in
  map tp_period history = ["Present"; "1M years"; "10M years"; "100M years"]
  /\ exists t1 t2 t3,
       map tp_temperature history = [koi_teq nasaPlanet; t1; t2; t3]
       /\ koi_teq nasaPlanet - 10 <= t1 <= koi_teq nasaPlanet
       /\ koi_teq nasaPlanet - 20 <= t2 <= koi_teq nasaPlanet
       /\ koi_teq nasaPlanet - 30 <= t3 <= koi_teq nasaPlanet.
Proof.
  intros Hdraws. cbn. split; [reflexivity |].
  pose proof (Hdraws 0%nat). pose proof (Hdraws 1%nat). pose proof (Hdraws 2%nat).
  eexists _, _, _. split; [reflexivity |]. repeat split; lra.
Qed.

Lemma halfDraws_valid : validDraws halfDraws.
Proof. intros k. unfold halfDraws. lra. Qed.

Lemma temperature_history_stays_below_present_witness :
  validDraws halfDraws
  /\ exists t1 t2 t3,
       map tp_temperature
         (temperatureHistory (planetDataOf noFixed noString halfDraws (recordNamed "K1")))
       = [koi_teq (recordNamed "K1"); t1; t2; t3]
       /\ t1 <= koi_teq (recordNamed "K1")
       /\ t2 <= koi_teq (recordNamed "K1")
       /\ t3 <= koi_teq (recordNamed "K1").
Proof.
  destruct (temperature_history_stays_below_present noFixed noString halfDraws
              (recordNamed "K1") halfDraws_valid)
    as [_ (t1 & t2 & t3 & Hmap & H1 & H2 & H3)].
  split; [exact halfDraws_valid |].
  exists t1, t2, t3.
  split; [exact Hmap | split; [apply H1 | split; [apply H2 | apply H3]]].
Defined.

(** ** The scene *)

Section SceneLayout.

Variable toFixed : R -> nat -> string.
Variable toString : R -> string.
Variable random : nat -> R.

(** X15. With draws that are at least 0 and less than 1, every generated
    object is placed on one of seven rings: its position is the cosine and
    the sine of its angle times a radius 112.5 + k·93.75 with k below 7,
    which is at least 112.5 and at most 675, so that neither horizontal
    coordinate passes 675 in absolute value; and its height is at least -75
    and less than 75. *)
Theorem planets_lie_in_a_bounded_ring
    (nasaData : list NASAExoplanetData) (i : nat) (p : UniversePlanetData) :
  validDraws random ->
  planetsOf toFixed toString random nasaData !! i = Some p ->
  exists k radius height,
    (k < 7)%nat
    /\ radius = 112.5 + INR k * 93.75
    /\ 112.5 <= radius <= 675
    /\ position p = (Math_cos (placementAngle i) * radius, height,
                     Math_sin (placementAngle i) * radius)
    /\ - radius <= fst (fst (position p)) <= radius
    /\ - radius <= snd (position p) <= radius
    /\ -675 <= fst (fst (position p)) <= 675
    /\ -675 <= snd (position p) <= 675
    /\ -75 <= height < 75.
Proof.
  intros Hdraws Hp.
  rewrite (planetsOf_position _ _ _ _ _ _ Hp). cbn [fst snd].
  assert (Hk : (i mod 7 < 7)%nat) by (apply Nat.mod_upper_bound; lia).
  assert (Hk0 : 0 <= INR (i mod 7)) by apply pos_INR.
  assert (Hk6 : INR (i mod 7) <= 6).
  { replace 6 with (INR 6) by (simpl; lra). apply le_INR. lia. }
  pose proof (COS_bound (placementAngle i)) as [Hc1 Hc2].
  pose proof (SIN_bound (placementAngle i)) as [Hs1 Hs2].
  pose proof (Hdraws i) as Hd.
  exists (i mod 7)%nat, (ringRadius i), (placementHeight (random i)).
  unfold ringRadius, placementHeight, Math_cos, Math_sin.
  split; [exact Hk |]. split; [reflexivity |]. split; [lra |].
  split; [reflexivity |].
  repeat split; nra.
Qed.

(** X16. The position of a generated object depends on its index and on
    the draw made for it only: two record lists, whatever their records and
    their lengths, give the same position to the objects of the same
    index. *)
Theorem position_ignores_the_record
    (nasaData1 nasaData2 : list NASAExoplanetData) (i : nat)
    (p1 p2 : UniversePlanetData) :
  planetsOf toFixed toString random nasaData1 !! i = Some p1 ->
  planetsOf toFixed toString random nasaData2 !! i = Some p2 ->
  position p1 = position p2.
Proof.
  intros H1 H2.
  rewrite (planetsOf_position _ _ _ _ _ _ H1), (planetsOf_position _ _ _ _ _ _ H2).
  reflexivity.
Qed.

(** X17. The camera comes to rest in front of the selected planet, on the
    line of sight along the third axis, at a distance that is 8 times the
    display radius but never less than 10: for a generated object this
    distance lies from 10 to 24, and it is 10 exactly when the planetary
    radius of the record is at most 1.25. *)
Theorem camera_keeps_its_distance
    (nasaData : list NASAExoplanetData) (i : nat)
    (p : UniversePlanetData) (r : NASAExoplanetData) :
  planetsOf toFixed toString random nasaData !! i = Some p ->
  nasaData !! i = Some r ->
  10 <= cameraDistance p <= 24
  /\ (cameraDistance p = 10 <-> koi_prad r <= 1.25)
  /\ cameraTarget p
     = (fst (fst (position p)), snd (fst (position p)),
        snd (position p) + cameraDistance p).
Proof.
  intros Hp Hr.
  assert (Hrad : radius p = displayRadius (koi_prad r)).
  { apply planetsOf_lookup_Some in Hp as [_ (r' & Hr' & ->)].
    rewrite Hr in Hr'. injection Hr' as <-. reflexivity. }
  unfold cameraTarget, cameraDistance. rewrite Hrad.
  unfold displayRadius, Math_max, Math_min, Rmax, Rmin.
  split; [| split].
  - repeat (destruct (Rle_dec _ _)); lra.
  - repeat (destruct (Rle_dec _ _)); split; intros; lra.
  - destruct (position p) as [[x y] z]. reflexivity.
Qed.

End SceneLayout.

Lemma planets_lie_in_a_bounded_ring_witness :
  validDraws halfDraws
  /\ planetsOf noFixed noString halfDraws (syntheticRecords 50) !! 13%nat
     = Some (syntheticPlanet 13)
  /\ exists k radius height,
       (k < 7)%nat
       /\ radius = 112.5 + INR k * 93.75
       /\ position (syntheticPlanet 13)
          = (Math_cos (placementAngle 13) * radius, height,
             Math_sin (placementAngle 13) * radius).
Proof.
  assert (H : planetsOf noFixed noString halfDraws (syntheticRecords 50) !! 13%nat
              = Some (syntheticPlanet 13)) by reflexivity.
  destruct (planets_lie_in_a_bounded_ring noFixed noString halfDraws
              (syntheticRecords 50) 13 _ halfDraws_valid H)
    as (k & radius & height & Hk & Hr & _ & Hpos & _).
  split; [exact halfDraws_valid | split; [exact H |]].
  exists k, radius, height. split; [exact Hk | split; [exact Hr | exact Hpos]].
Defined.

Lemma position_ignores_the_record_witness :
  planetsOf noFixed noString halfDraws (syntheticRecords 50) !! 1%nat
  = Some (syntheticPlanet 1)
  /\ planetsOf noFixed noString halfDraws blankNameData !! 1%nat
     = Some (universePlanetOf noFixed noString halfDraws 1 (recordNamed " "))
  /\ position (syntheticPlanet 1)
     = position (universePlanetOf noFixed noString halfDraws 1 (recordNamed " ")).
Proof.
  assert (H1 : planetsOf noFixed noString halfDraws (syntheticRecords 50) !! 1%nat
               = Some (syntheticPlanet 1)) by reflexivity.
  assert (H2 : planetsOf noFixed noString halfDraws blankNameData !! 1%nat
               = Some (universePlanetOf noFixed noString halfDraws 1 (recordNamed " ")))
    by reflexivity.
  split; [exact H1 | split; [exact H2 |]].
  exact (position_ignores_the_record noFixed noString halfDraws _ _ 1 _ _ H1 H2).
Defined.

Lemma camera_keeps_its_distance_witness :
  planetsOf noFixed noString halfDraws (syntheticRecords 50) !! 3%nat
  = Some (syntheticPlanet 3)
  /\ syntheticRecords 50 !! 3%nat = Some (syntheticRecord 3)
  /\ koi_prad (syntheticRecord 3) <= 1.25
  /\ cameraDistance (syntheticPlanet 3) = 10.
Proof.
  assert (Hp : planetsOf noFixed noString halfDraws (syntheticRecords 50) !! 3%nat
               = Some (syntheticPlanet 3)) by reflexivity.
  assert (Hr : syntheticRecords 50 !! 3%nat = Some (syntheticRecord 3)) by reflexivity.
  assert (Hsmall : koi_prad (syntheticRecord 3) <= 1.25) by (simpl; lra).
  destruct (camera_keeps_its_distance noFixed noString halfDraws
              (syntheticRecords 50) 3 _ _ Hp Hr) as (_ & Hten & _).
  split; [exact Hp | split; [exact Hr | split; [exact Hsmall |]]].
  exact (proj2 Hten Hsmall).
Defined.

(** ** Colors and textures across the components *)

(** X18. The color label of the page and the atmosphere color of the
    viewer agree on the three cold bands and on the warm one, but not
    beyond: blue, cyan and green go with the atmospheres of hue 240, 200
    and 120, yellowgreen and yellow together with hue 60, orange always
    has hue 30 and red hue 0, while redorange has hue 30 below 450 K and
    hue 0 from 450 K on. *)
Theorem color_label_and_atmosphere (t : R) :
  (getPlanetColor t = "blue" <-> UniverseViewer.getAtmosphereColor t = "hsl(240, 70%, 50%)")
  /\ (getPlanetColor t = "cyan" <-> UniverseViewer.getAtmosphereColor t = "hsl(200, 65%, 55%)")
  /\ (getPlanetColor t = "green" <-> UniverseViewer.getAtmosphereColor t = "hsl(120, 60%, 45%)")
  /\ (getPlanetColor t = "yellowgreen" \/ getPlanetColor t = "yellow"
      <-> UniverseViewer.getAtmosphereColor t = "hsl(60, 70%, 55%)")
  /\ (getPlanetColor t = "orange" -> UniverseViewer.getAtmosphereColor t = "hsl(30, 80%, 50%)")
  /\ (getPlanetColor t = "red" -> UniverseViewer.getAtmosphereColor t = "hsl(0, 85%, 45%)")
  /\ (getPlanetColor t = "redorange" ->
      (t < 450 /\ UniverseViewer.getAtmosphereColor t = "hsl(30, 80%, 50%)")
      \/ (450 <= t /\ UniverseViewer.getAtmosphereColor t = "hsl(0, 85%, 45%)")).
Proof.
  unfold getPlanetColor, UniverseViewer.getAtmosphereColor.
  repeat split; js_compare; intros H;
    try discriminate; try reflexivity;
    try (destruct H; discriminate);
    try (left; reflexivity); try (right; reflexivity);
    try (left; split; [lra | reflexivity]);
    try (right; split; [lra | reflexivity]).
Qed.

Lemma color_label_and_atmosphere_witness :
  getPlanetColor 420 = "redorange"
  /\ getPlanetColor 470 = "redorange"
  /\ UniverseViewer.getAtmosphereColor 420 = "hsl(30, 80%, 50%)"
  /\ UniverseViewer.getAtmosphereColor 470 = "hsl(0, 85%, 45%)".
Proof.
  assert (H420 : getPlanetColor 420 = "redorange") by (unfold getPlanetColor; js_compare; reflexivity).
  assert (H470 : getPlanetColor 470 = "redorange") by (unfold getPlanetColor; js_compare; reflexivity).
  pose proof (color_label_and_atmosphere 420) as (_ & _ & _ & _ & _ & _ & Ha).
  pose proof (color_label_and_atmosphere 470) as (_ & _ & _ & _ & _ & _ & Hb).
  split; [exact H420 | split; [exact H470 | split]].
  - destruct (Ha H420) as [[_ H] | [Hge _]]; [exact H | lra].
  - destruct (Hb H470) as [[Hlt _] | [_ H]]; [lra | exact H].
Defined.

(** X19. In the viewer the texture and the atmosphere go together: two
    temperatures have the same atmosphere color exactly when they have the
    same family of textures; and the preview of the overlay shows the first
    texture of the family from which the universe picks, with the same
    atmosphere color. *)
Theorem texture_family_and_atmosphere (t1 t2 : R) (planetId : string) :
  (UniverseViewer.getAtmosphereColor t1 = UniverseViewer.getAtmosphereColor t2
   <-> bandTextures t1 = bandTextures t2)
  /\ bandTextures t1 !! 0%nat = Some (PlanetViewer.getTextureForTemperature t1)
  /\ (exists texture,
        UniverseViewer.getTextureForTemperature t1 planetId = Some texture
        /\ texture ∈ bandTextures t1)
  /\ PlanetViewer.getAtmosphereColor t1 = UniverseViewer.getAtmosphereColor t1.
Proof.
  split; [| split; [| split]].
  - unfold UniverseViewer.getAtmosphereColor, bandTextures.
    js_compare; split; intros H; first [reflexivity | discriminate].
  - unfold bandTextures, PlanetViewer.getTextureForTemperature.
    js_compare; reflexivity.
  - assert (Hv : (0 <= charCodeSum 0 planetId mod 5 < 5)%Z)
      by (apply Z.mod_pos_bound; lia).
    destruct (lookup_lt_is_Some_2 (bandTextures t1)
                (Z.to_nat (charCodeSum 0 planetId mod 5))) as [texture Ht].
    { rewrite bandTextures_length. lia. }
    exists texture. split; [| eapply list_elem_of_lookup_2; exact Ht].
    rewrite <- Ht. unfold UniverseViewer.getTextureForTemperature, bandTextures.
    replace (charCodeSum 0 planetId mod 5 + 1 - 1)%Z
      with (charCodeSum 0 planetId mod 5)%Z by lia.
    js_compare; apply item_in_range; lia.
  - reflexivity.
Qed.

Lemma texture_family_and_atmosphere_witness :
  UniverseViewer.getAtmosphereColor 210 = UniverseViewer.getAtmosphereColor 250
  /\ bandTextures 210 = bandTextures 250.
Proof.
  assert (Hatm : UniverseViewer.getAtmosphereColor 210
                 = UniverseViewer.getAtmosphereColor 250)
    by (unfold UniverseViewer.getAtmosphereColor; js_compare; reflexivity).
  split; [exact Hatm |].
  exact (proj1 (proj1 (texture_family_and_atmosphere 210 250 "P3")) Hatm).
Defined.

(** X20. When the preview gets no temperature it derives one from the
    color label.  For a label of the page this gives the texture of the
    family of the planet in all bands but two: a blue planet, below 200 K,
    is shown with the first cyan texture, and a redorange planet below
    450 K with the first red one. *)
Theorem preview_from_color_label (t : R) :
  let viaLabel := PlanetViewer.textureUrl (Some (getPlanetColor t)) None in
  let direct := PlanetViewer.textureUrl (Some (getPlanetColor t)) (Some t) in
  direct = PlanetViewer.getTextureForTemperature t
  /\ (200 <= t < 400 \/ 450 <= t -> viaLabel = direct)
  /\ (t < 200 -> direct = planetIceBlue1 /\ viaLabel = planetCyanCold1)
  /\ (400 <= t < 450 -> direct = planetOrangeHot1 /\ viaLabel = planetRedScorching1)
  /\ PlanetViewer.textureUrl None None = planetCyanCold1.
Proof.
  cbv zeta. unfold PlanetViewer.textureUrl, PlanetViewer.temperatureOf.
  split; [reflexivity |].
  assert (Hblue : PlanetViewer.getTemperatureFromColor (Some "blue") = 200) by reflexivity.
  assert (Hcyan : PlanetViewer.getTemperatureFromColor (Some "cyan") = 250) by reflexivity.
  assert (Hgreen : PlanetViewer.getTemperatureFromColor (Some "green") = 260) by reflexivity.
  assert (Hyg : PlanetViewer.getTemperatureFromColor (Some "yellowgreen") = 320) by reflexivity.
  assert (Hy : PlanetViewer.getTemperatureFromColor (Some "yellow") = 320) by reflexivity.
  assert (Ho : PlanetViewer.getTemperatureFromColor (Some "orange") = 350) by reflexivity.
  assert (Hro : PlanetViewer.getTemperatureFromColor (Some "redorange") = 450) by reflexivity.
  assert (Hr : PlanetViewer.getTemperatureFromColor (Some "red") = 450) by reflexivity.
  assert (Hnone : PlanetViewer.getTemperatureFromColor None = 250) by reflexivity.
  repeat split; try intros Hband; unfold getPlanetColor;
    try rewrite Hnone;
    js_compare;
    rewrite ?Hblue, ?Hcyan, ?Hgreen, ?Hyg, ?Hy, ?Ho, ?Hro, ?Hr;
    unfold PlanetViewer.getTextureForTemperature; js_compare; reflexivity.
Qed.

Lemma preview_from_color_label_witness :
  150 < 200
  /\ PlanetViewer.textureUrl (Some (getPlanetColor 150)) (Some 150) = planetIceBlue1
  /\ PlanetViewer.textureUrl (Some (getPlanetColor 150)) None = planetCyanCold1
  /\ 200 <= 300 < 400
  /\ PlanetViewer.textureUrl (Some (getPlanetColor 300)) None
     = PlanetViewer.textureUrl (Some (getPlanetColor 300)) (Some 300).
Proof.
  assert (H150 : 150 < 200) by lra.
  assert (H300 : 200 <= 300 < 400) by lra.
  pose proof (preview_from_color_label 150) as (_ & _ & Hcold & _).
  pose proof (preview_from_color_label 300) as (_ & Hmid & _).
  destruct (Hcold H150) as [Hd Hv].
  split; [exact H150 | split; [exact Hd | split; [exact Hv | split; [exact H300 |]]]].
  exact (Hmid (or_introl H300)).
Defined.

(** ** The starfield *)

Module StarfieldFacts.
Import StarfieldBackground.

Lemma moved_star_inside (width height : nat) (star : Star) :
  insideMargin width height (moveStar width height star).
Proof.
  unfold insideMargin, moveStar. cbn [x y].
  pose proof (pos_INR width) as Hw. pose proof (pos_INR height) as Hh.
  destruct (gt_spec (x star + velocityX star) (INR width + 10));
    destruct (gt_spec (y star + velocityY star) (INR height + 10));
    repeat match goal with
      | |- context [lt ?a ?b] => destruct (lt_spec a b)
      end;
    repeat split; lra.
Qed.

(** X21. One move brings any star, wherever it was and whatever its
    velocity, within the margin of 10 pixels around the canvas: a star that
    would pass the right or the lower margin reappears on the opposite
    margin line, one that would pass the left or the upper margin
    reappears on the far margin line, and any other just moves by its
    velocity.  The move changes nothing but the position. *)
Theorem moved_star_is_inside_the_margin (width height : nat) (star : Star) :
  let star' := moveStar width height star in
  insideMargin width height star'
  /\ (x star + velocityX star > INR width + 10 -> x star' = -10)
  /\ (x star + velocityX star < -10 -> x star' = INR width + 10)
  /\ (-10 <= x star + velocityX star <= INR width + 10 ->
      x star' = x star + velocityX star)
  /\ (y star + velocityY star > INR height + 10 -> y star' = -10)
  /\ (y star + velocityY star < -10 -> y star' = INR height + 10)
  /\ (-10 <= y star + velocityY star <= INR height + 10 ->
      y star' = y star + velocityY star)
  /\ (size star', brightness star', twinkleSpeed star', twinkleOffset star',
      velocityX star', velocityY star')
     = (size star, brightness star, twinkleSpeed star, twinkleOffset star,
        velocityX star, velocityY star).
Proof.
  cbv zeta. unfold insideMargin, moveStar. cbn [x y size brightness twinkleSpeed
    twinkleOffset velocityX velocityY].
  pose proof (pos_INR width) as Hw. pose proof (pos_INR height) as Hh.
  destruct (gt_spec (x star + velocityX star) (INR width + 10));
    destruct (gt_spec (y star + velocityY star) (INR height + 10));
    repeat match goal with
      | |- context [lt ?a ?b] => destruct (lt_spec a b)
      end;
    repeat split; intros; lra.
Qed.

Lemma moved_star_is_inside_the_margin_witness :
  let star := {| x := 1929.95; y := 500; size := 1; brightness := 0.5;
                 twinkleSpeed := 0.01; twinkleOffset := 1;
                 velocityX := 0.08; velocityY := -0.04 |} in
  x star + velocityX star > INR 1920 + 10
  /\ x (moveStar 1920 1080 star) = -10
  /\ y (moveStar 1920 1080 star) = 500 + -0.04.
Proof.
  cbv zeta.
  set (star := {| x := 1929.95; y := 500; size := 1; brightness := 0.5;
                  twinkleSpeed := 0.01; twinkleOffset := 1;
                  velocityX := 0.08; velocityY := -0.04 |}).
  assert (H1920 : INR 1920 = 1920) by (rewrite INR_IZR_INZ; reflexivity).
  assert (H1080 : INR 1080 = 1080) by (rewrite INR_IZR_INZ; reflexivity).
  assert (Hx : x star + velocityX star > INR 1920 + 10) by (cbn; lra).
  assert (Hy : -10 <= y star + velocityY star <= INR 1080 + 10) by (cbn; lra).
  destruct (moved_star_is_inside_the_margin 1920 1080 star)
    as (_ & Hwrap & _ & _ & _ & _ & Hmove & _).
  split; [exact Hx | split; [exact (Hwrap Hx) | exact (Hmove Hy)]].
Defined.

Lemma numStars_spec (width height : nat) :
  (8000 * Z.of_nat (numStars width height) <= Z.of_nat width * Z.of_nat height
   < 8000 * (Z.of_nat (numStars width height) + 1))%Z.
Proof.
  unfold numStars, Math_floor.
  set (q := INR width * INR height / 8000).
  pose proof (base_Int_part q) as [Hle Hgt].
  assert (Hq : q * 8000 = IZR (Z.of_nat width * Z.of_nat height)).
  { unfold q. rewrite mult_IZR, <- !INR_IZR_INZ. field. }
  assert (Hq0 : 0 <= q).
  { unfold q. pose proof (pos_INR width). pose proof (pos_INR height).
    apply Rmult_le_pos; [nra | lra]. }
  assert (Hz : (0 <= Int_part q)%Z).
  { assert ((-1 < Int_part q)%Z) by (apply lt_IZR; lra). lia. }
  rewrite Z2Nat.id by exact Hz. split.
  - apply le_IZR. rewrite (mult_IZR 8000), <- Hq. lra.
  - apply lt_IZR. rewrite (mult_IZR 8000), plus_IZR, <- Hq. lra.
Qed.

(** X22. On a canvas of [width] by [height] pixels the generator makes one
    star for every 8000 whole pixels of area, none on a canvas smaller than
    that; with draws that are at least 0 and less than 1, every star starts
    on the canvas with a size from 0.5 to 2.5, a brightness from 0.2 to 1,
    both ends included, and a speed of at most 0.0875 pixel a frame across
    and half of that down. *)
Theorem generated_stars_are_fresh (width height : nat) (random : nat -> R) :
  validDraws random ->
  let stars := generateStars width height random in
  (8000 * Z.of_nat (length stars) <= Z.of_nat width * Z.of_nat height
   < 8000 * (Z.of_nat (length stars) + 1))%Z
  /\ ((Z.of_nat width * Z.of_nat height < 8000)%Z -> stars = [])
  /\ Forall (freshStar width height) stars.
Proof.
  intros Hdraws. cbv zeta.
  assert (Hlen : length (generateStars width height random) = numStars width height).
  { unfold generateStars. rewrite length_map, length_seq. reflexivity. }
  pose proof (numStars_spec width height) as Hspec.
  split; [rewrite Hlen; exact Hspec |]. split.
  - intros Hsmall.
    destruct (generateStars width height random) as [| star rest]; [reflexivity |].
    cbn [length] in Hlen. rewrite <- Hlen in Hspec. lia.
  - unfold generateStars. apply Forall_forall. intros star Hstar.
    apply list_elem_of_In, in_map_iff in Hstar as (i & <- & _).
    unfold freshStar, starOf. cbn [x y size brightness twinkleSpeed twinkleOffset
      velocityX velocityY].
    pose proof (pos_INR width) as Hw. pose proof (pos_INR height) as Hh.
    pose proof PI_RGT_0 as Hpi. unfold Math_PI.
    pose proof (Hdraws (8 * i)%nat). pose proof (Hdraws (8 * i + 1)%nat).
    pose proof (Hdraws (8 * i + 2)%nat). pose proof (Hdraws (8 * i + 3)%nat).
    pose proof (Hdraws (8 * i + 4)%nat). pose proof (Hdraws (8 * i + 5)%nat).
    pose proof (Hdraws (8 * i + 6)%nat). pose proof (Hdraws (8 * i + 7)%nat).
    repeat split; nra.
Qed.

Lemma generated_stars_are_fresh_witness :
  validDraws halfDraws
  /\ (Z.of_nat 80 * Z.of_nat 90 < 8000)%Z
  /\ generateStars 80 90 halfDraws = []
  /\ Forall (freshStar 800 600) (generateStars 800 600 halfDraws).
Proof.
  assert (Hsmall : (Z.of_nat 80 * Z.of_nat 90 < 8000)%Z) by (apply Z.ltb_lt; reflexivity).
  destruct (generated_stars_are_fresh 80 90 halfDraws halfDraws_valid) as (_ & Hnone & _).
  destruct (generated_stars_are_fresh 800 600 halfDraws halfDraws_valid) as (_ & _ & Hall).
  split; [exact halfDraws_valid | split; [exact Hsmall | split; [exact (Hnone Hsmall) | exact Hall]]].
Defined.

Lemma frames_step (width height n : nat) (frame : R * list Star) :
  frames width height (S n) frame
  = animate width height (frames width height n frame).
Proof.
  revert frame. induction n as [| n IH]; intros frame; [reflexivity |].
  change (frames width height (S (S n)) frame)
    with (frames width height (S n) (animate width height frame)).
  rewrite IH. reflexivity.
Qed.

(** X23. Animation keeps the starfield: after any number of frames on a
    canvas that keeps its size there are as many stars as at the start,
    each with the size, the brightness, the twinkle and the velocity it
    had; the clock has advanced by 0.016 a frame; and from the first frame
    on every star is within the margin of 10 pixels, as are the generated
    stars before it. *)
Theorem animation_keeps_the_starfield
    (width height n : nat) (time : R) (stars : list Star) :
  let frame := frames width height n (time, stars) in
  fst frame = time + INR n * 0.016
  /\ length (snd frame) = length stars
  /\ map (fun s => (size s, brightness s, twinkleSpeed s, twinkleOffset s,
                    velocityX s, velocityY s)) (snd frame)
     = map (fun s => (size s, brightness s, twinkleSpeed s, twinkleOffset s,
                      velocityX s, velocityY s)) stars
  /\ ((0 < n)%nat \/ Forall (freshStar width height) stars ->
      Forall (insideMargin width height) (snd frame)).
Proof.
  cbv zeta. induction n as [| n IH].
  - cbn. split; [lra |]. split; [reflexivity |]. split; [reflexivity |].
    intros [Hn | Hfresh]; [lia |].
    eapply Forall_impl; [exact Hfresh |].
    intros star (Hx & Hy & _). unfold insideMargin. lra.
  - rewrite frames_step.
    destruct (frames width height n (time, stars)) as [time' stars'].
    destruct IH as (Htime & Hlen & Hattr & _). cbn [animate fst snd] in *.
    split; [rewrite Htime, S_INR; lra |].
    split; [rewrite length_map; exact Hlen |].
    split.
    + rewrite <- Hattr, map_map. reflexivity.
    + intros _. apply Forall_forall. intros star Hstar.
      apply list_elem_of_In, in_map_iff in Hstar as (star0 & <- & _).
      apply (moved_star_inside width height star0).
Qed.

Lemma animation_keeps_the_starfield_witness :
  (0 < 3)%nat
  /\ length (snd (frames 800 600 3 (0, generateStars 800 600 halfDraws)))
     = length (generateStars 800 600 halfDraws)
  /\ Forall (insideMargin 800 600)
            (snd (frames 800 600 3 (0, generateStars 800 600 halfDraws))).
Proof.
  assert (Hn : (0 < 3)%nat) by lia.
  destruct (animation_keeps_the_starfield 800 600 3 0 (generateStars 800 600 halfDraws))
    as (_ & Hlen & _ & Hin).
  split; [exact Hn | split; [exact Hlen | exact (Hin (or_introl Hn))]].
Defined.

Lemma inv_sqrt2_above_two_thirds : 2 / 3 < 1 / sqrt 2.
Proof.
  pose proof Rlt_sqrt2_0 as Hpos.
  assert (Hlt : sqrt 2 < 3 / 2).
  { rewrite <- (sqrt_square (3 / 2)) by lra. apply sqrt_lt_1_alt. lra. }
  apply (Rmult_lt_reg_r (sqrt 2)); [exact Hpos |].
  unfold Rdiv. rewrite Rmult_1_l, Rinv_l by lra. lra.
Qed.

(** Between a quarter and three quarters of π the sine is at least that of
    a quarter of π. *)
Lemma sin_middle_arc (u : R) : PI / 4 <= u <= 3 * (PI / 4) -> 1 / sqrt 2 <= sin u.
Proof.
  intros [Hlo Hhi]. pose proof PI_RGT_0 as Hpi.
  destruct (Rle_dec u (PI / 2)) as [Hle | Hgt].
  - rewrite <- sin_PI4. apply sin_incr_1; lra.
  - rewrite <- sin_3PI4. apply sin_decr_1; lra.
Qed.

(** X24. A star whose brightness is at least 0.2 and at most 1, as the
    generator makes it, is drawn at every time with a twinkle factor above
    0.39 and at most 1, hence with an opacity that is positive, at least
    0.39 times its brightness and at most its brightness; its hue lies
    from 40 to 160 and its saturation from -10 to 50.  The saturation is
    negative for every star whose twinkle offset lies from 5π/8 to 7π/8,
    which the generator makes from the draws from 5/16 to 7/16.  The glow
    is drawn exactly for the stars larger than 1.5. *)
Theorem star_is_drawn_within_ranges (time : R) (star : Star) :
  0.2 <= brightness star <= 1 ->
  0.39 < twinkle time star <= 1
  /\ 0 < opacity time star <= brightness star
  /\ 0.39 * brightness star <= opacity time star
  /\ 40 <= hue star <= 160
  /\ -10 <= saturation star <= 50
  /\ (5 * PI / 8 <= twinkleOffset star <= 7 * PI / 8 -> saturation star < 0)
  /\ (forall draw, 5 / 16 <= draw <= 7 / 16 ->
        5 * PI / 8 <= draw * Math_PI * 2 <= 7 * PI / 8)
  /\ (hasGlow star = true <-> size star > 1.5).
Proof.
  intros Hb. unfold opacity, twinkle, hue, saturation, hasGlow, Math_sin.
  pose proof (SIN_bound (time * twinkleSpeed star + twinkleOffset star)) as [H1 H2].
  pose proof (SIN_bound (twinkleOffset star)) as [H3 H4].
  pose proof (SIN_bound (twinkleOffset star * 2)) as [H5 H6].
  pose proof PI_RGT_0 as Hpi.
  split; [lra |]. split; [nra |]. split; [nra |]. split; [lra |]. split; [lra |].
  split; [| split].
  - intros Hoff.
    replace (twinkleOffset star * 2) with (twinkleOffset star * 2 - PI + PI) by lra.
    rewrite neg_sin.
    pose proof (sin_middle_arc (twinkleOffset star * 2 - PI)) as Hmid.
    pose proof inv_sqrt2_above_two_thirds as Hroot.
    assert (Harc : PI / 4 <= twinkleOffset star * 2 - PI <= 3 * (PI / 4)) by lra.
    specialize (Hmid Harc). lra.
  - intros draw Hdraw. unfold Math_PI. nra.
  - destruct (gt_spec (size star) 1.5); split; intros; try lra; try reflexivity;
      discriminate.
Qed.

Lemma star_is_drawn_within_ranges_witness :
  let star := starOf 800 600 (fun _ => 3 / 8) 0 in
  0.2 <= brightness star <= 1
  /\ 5 / 16 <= 3 / 8 <= 7 / 16
  /\ 5 * PI / 8 <= twinkleOffset star <= 7 * PI / 8
  /\ 0 < opacity 12 star <= brightness star
  /\ saturation star < 0.
Proof.
  cbv zeta.
  set (star := starOf 800 600 (fun _ => 3 / 8) 0).
  assert (Hb : 0.2 <= brightness star <= 1) by (cbn; lra).
  assert (Hdraw : 5 / 16 <= 3 / 8 <= 7 / 16) by lra.
  destruct (star_is_drawn_within_ranges 12 star Hb)
    as (_ & Hop & _ & _ & _ & Hneg & Hgen & _).
  assert (Hoff : 5 * PI / 8 <= twinkleOffset star <= 7 * PI / 8)
    by exact (Hgen (3 / 8) Hdraw).
  split; [exact Hb | split; [exact Hdraw | split; [exact Hoff | split; [exact Hop |]]]].
  exact (Hneg Hoff).
Defined.

End StarfieldFacts.

(** ** What the viewer shows of the session *)

Lemma planetsWithDiscovery_lookup (planets : list UniversePlanetData)
    (d : option (gset string)) (i : nat) (entry : PlanetData) :
  planetsWithDiscovery planets d !! i = Some entry ->
  planets !! i = Some (planetOf entry)
  /\ discoveredFlag entry
     = match d with
       | Some set => bool_decide (id (planetOf entry) ∈ set)
       | None => false
       end.
Proof.
  unfold planetsWithDiscovery. change (map ?f planets) with (f <$> planets).
  rewrite list_lookup_fmap. destruct (planets !! i) as [p |]; [| discriminate].
  intros [= <-]. cbn. split; [reflexivity |].
  destruct d; [unfold discovered; apply orb_false_r | reflexivity].
Qed.

(** X25. After any sequence of clicks, searches and closings the viewer
    shows as many planets as the universe has, in its order, and draws the
    golden glow around exactly those whose identifier was discovered before
    or belongs to a clicked planet, the red glow around all others; without
    the set of discovered identifiers every glow is red. *)
Theorem golden_glow_marks_the_clicked
    (events : list Event) (s : State) (i : nat) (entry : PlanetData) :
  let s' := run s events in
  length (planetsWithDiscovery (universePlanets s') (Some (discoveredPlanets s')))
  = length (universePlanets s)
  /\ (planetsWithDiscovery (universePlanets s') (Some (discoveredPlanets s')) !! i
      = Some entry ->
      universePlanets s !! i = Some (planetOf entry)
      /\ (glowColor entry = "#FFD700"
          <-> id (planetOf entry) ∈ discoveredPlanets s
              \/ id (planetOf entry) ∈ selectedIds events)
      /\ (glowColor entry = "#FF0000"
          <-> ~ (id (planetOf entry) ∈ discoveredPlanets s
                 \/ id (planetOf entry) ∈ selectedIds events)))
  /\ (planetsWithDiscovery (universePlanets s') None !! i = Some entry ->
      glowColor entry = "#FF0000").
Proof.
  cbv zeta. rewrite run_keeps_universe, discovered_after_run.
  split; [unfold planetsWithDiscovery; apply length_map |]. split.
  - intros Hentry. apply planetsWithDiscovery_lookup in Hentry as [Hp Hflag].
    split; [exact Hp |]. unfold glowColor. rewrite Hflag.
    assert (Hmem : id (planetOf entry)
                   ∈ discoveredPlanets s ∪ list_to_set (selectedIds events)
                   <-> id (planetOf entry) ∈ discoveredPlanets s
                       \/ id (planetOf entry) ∈ selectedIds events).
    { rewrite elem_of_union, elem_of_list_to_set. reflexivity. }
    rewrite <- Hmem. case_bool_decide; split; split; intros; try discriminate;
      try reflexivity; try assumption; contradiction.
  - intros Hentry. apply planetsWithDiscovery_lookup in Hentry as [_ Hflag].
    unfold glowColor. rewrite Hflag. reflexivity.
Qed.

Lemma golden_glow_marks_the_clicked_witness :
  let s := loadedSession 5 in
  let events := [Select (syntheticPlanet 3); Search "p1"] in
  let entry := {| planetOf := syntheticPlanet 3; discoveredFlag := true |} in
  planetsWithDiscovery (universePlanets (run s events))
    (Some (discoveredPlanets (run s events))) !! 3%nat = Some entry
  /\ id (planetOf entry) ∈ selectedIds events
  /\ glowColor entry = "#FFD700".
Proof.
  cbv zeta.
  set (s := loadedSession 5).
  set (events := [Select (syntheticPlanet 3); Search "p1"]).
  set (entry := {| planetOf := syntheticPlanet 3; discoveredFlag := true |}).
  assert (Hclicked : id (planetOf entry) ∈ selectedIds events)
    by (apply list_elem_of_here).
  assert (Hentry : planetsWithDiscovery (universePlanets (run s events))
                     (Some (discoveredPlanets (run s events))) !! 3%nat = Some entry).
  { destruct (planetsWithDiscovery (universePlanets (run s events))
                (Some (discoveredPlanets (run s events))) !! 3%nat) as [e |] eqn:He.
    - destruct (planetsWithDiscovery_lookup _ _ _ _ He) as [Hp Hflag].
      assert (Hpe : planetOf e = syntheticPlanet 3).
      { assert (Hu : universePlanets (run s events) !! 3%nat = Some (syntheticPlanet 3))
          by reflexivity.
        rewrite Hu in Hp. injection Hp as <-. reflexivity. }
      assert (Hfe : discoveredFlag e = true).
      { rewrite Hflag, Hpe. apply bool_decide_eq_true.
        rewrite discovered_after_run. apply elem_of_union_r, elem_of_list_to_set.
        exact Hclicked. }
      destruct e as [pe fe]. cbn in Hpe, Hfe. subst pe fe. reflexivity.
    - apply lookup_ge_None in He.
      unfold planetsWithDiscovery in He. rewrite length_map in He.
      assert (Hl : length (universePlanets (run s events)) = 5%nat) by reflexivity.
      lia. }
  destruct (golden_glow_marks_the_clicked events s 3 entry) as (_ & Hglow & _).
  destruct (Hglow Hentry) as (_ & Hgold & _).
  split; [exact Hentry | split; [exact Hclicked | exact (proj2 Hgold (or_intror Hclicked))]].
Defined.

Section LoadedUniverse.

Variable toFixed : R -> nat -> string.
Variable toString : R -> string.
Variable random : nat -> R.

(** X26. When records arrive, the page stores them and regenerates the
    universe from them, with min(N, 50) planets, only if there is at least
    one; an empty answer is stored but leaves the universe that was there.
    In both cases the selection, the planet name and the discovered set
    stay, though they may belong to planets that are gone. *)
Theorem loaded_records_replace_the_universe
    (data : list NASAExoplanetData) (s : State) :
  let s' := dataLoaded toFixed toString random data s in
  availablePlanets s' = data
  /\ (data = [] -> universePlanets s' = universePlanets s)
  /\ (data <> [] ->
      universePlanets s' = planetsOf toFixed toString random data
      /\ length (universePlanets s') = Nat.min (length data) 50
      /\ universePlanets s' <> [])
  /\ selectedPlanet s' = selectedPlanet s
  /\ planetName s' = planetName s
  /\ discoveredPlanets s' = discoveredPlanets s.
Proof.
  cbv zeta. unfold dataLoaded, availablePlanetsEffect. cbn [availablePlanets setAvailablePlanets].
  destruct data as [| r data].
  - cbn. split; [reflexivity |]. split; [reflexivity |].
    split; [congruence | repeat split].
  - split; [reflexivity |]. split; [discriminate |]. split; [| repeat split].
    intros _. split; [reflexivity |].
    split; [apply planetsOf_length | discriminate].
Qed.

End LoadedUniverse.

Lemma loaded_records_replace_the_universe_witness :
  syntheticRecords 3 <> []
  /\ length (universePlanets (dataLoaded noFixed noString halfDraws (syntheticRecords 3)
                                (loadedSession 5))) = 3%nat
  /\ universePlanets (dataLoaded noFixed noString halfDraws [] (loadedSession 5))
     = universePlanets (loadedSession 5).
Proof.
  assert (Hne : syntheticRecords 3 <> []) by discriminate.
  destruct (loaded_records_replace_the_universe noFixed noString halfDraws
              (syntheticRecords 3) (loadedSession 5)) as (_ & _ & Hfull & _).
  destruct (loaded_records_replace_the_universe noFixed noString halfDraws
              [] (loadedSession 5)) as (_ & Hempty & _).
  destruct (Hfull Hne) as (_ & Hlen & _).
  split; [exact Hne | split; [exact Hlen | exact (Hempty eq_refl)]].
Defined.
